(** * RAG chat orchestration: a shallow embedding of the request pipeline

    The development follows the TypeScript sources: [utils.ts]
    ([sanitizeQuestion], [appendDefaultsIfNeeded]) and the [RAGChat] class
    (constructor, [chat], [checkRatelimit], [addUserMessageToHistory],
    [getChatHistory], [generatePrompt], [getOptionsWithDefaults]).

    - JavaScript strings are sequences of UTF-16 code units ([list N]).
    - JavaScript objects used as option bags are finite maps from property
      names to values ([gmap string JsVal]); a key can be absent, or present
      with the value [undefined], and object spread tells the two apart.
    - Asynchronous, effectful code is written in a small monad that threads
      the history store and the array heap, collects the calls made to the
      collaborators in a log, and can throw. *)

From Stdlib Require Import ZArith QArith_base Qround Ascii String List.
From stdpp Require Import base option list strings pretty gmap fin_maps.

Close Scope Q_scope.
Open Scope bool_scope.

(** ** Strings *)

Abbreviation jsstring := (list N).

(** An ASCII literal as a JavaScript string. *)
Definition js (s : string) : jsstring :=
  N_of_ascii <$> list_ascii_of_string s.

Definition LF : N := 10%N.
Definition SP : N := 32%N.

(** The code units that [String.prototype.trim] strips: ECMAScript
    [WhiteSpace] (TAB, VT, FF, SP, NBSP, ZWNBSP and the Unicode space
    separators) and [LineTerminator] (LF, CR, LS, PS). *)
Definition isWhiteSpace (c : N) : bool :=
  ((9 <=? c) && (c <=? 13) || (c =? 32) || (c =? 160) || (c =? 5760)
   || (8192 <=? c) && (c <=? 8202) || (c =? 8232) || (c =? 8233)
   || (c =? 8239) || (c =? 8287) || (c =? 12288) || (c =? 65279))%N.

Fixpoint trimStart (s : jsstring) : jsstring :=
  match s with
  | [] => []
  | c :: r => if isWhiteSpace c then trimStart r else s
  end.

Definition trimEnd (s : jsstring) : jsstring := reverse (trimStart (reverse s)).

Definition trim (s : jsstring) : jsstring := trimEnd (trimStart s).

Fixpoint startsWith (pat s : jsstring) : bool :=
  match pat, s with
  | [], _ => true
  | p :: pat', c :: s' => (p =? c)%N && startsWith pat' s'
  | _ :: _, [] => false
  end.

(** [replaceAll_from pat rep skip s]: scan [s] left to right; [skip] counts
    the code units of a match that are still to be passed over. *)
Fixpoint replaceAll_from (pat rep : jsstring) (skip : nat) (s : jsstring) : jsstring :=
  match s with
  | [] => []
  | c :: r =>
      match skip with
      | S k => replaceAll_from pat rep k r
      | O =>
          if startsWith pat s
          then rep ++ replaceAll_from pat rep (length pat - 1) r
          else c :: replaceAll_from pat rep 0 r
      end
  end.

(** [String.prototype.replaceAll] with a string pattern and a replacement
    string without [$] patterns: every non-overlapping occurrence, leftmost
    first; the empty pattern matches before every code unit and at the
    end. *)
Definition replaceAll (pat rep s : jsstring) : jsstring :=
  match pat with
  | [] => rep ++ flat_map (fun c => c :: rep) s
  | _ :: _ => replaceAll_from pat rep 0 s
  end.

(** [utils.ts]: [question.trim().replaceAll("\n", " ")]. *)
Definition sanitizeQuestion (question : jsstring) : jsstring :=
  replaceAll [LF] [SP] (trim question).

(** [Array.prototype.join]. *)
Fixpoint join (sep : jsstring) (l : list jsstring) : jsstring :=
  match l with
  | [] => []
  | [x] => x
  | x :: r => x ++ sep ++ join sep r
  end.

(** [utils.ts]: [facts.join("\n")]. *)
Definition formatFacts (facts : list jsstring) : jsstring := join [LF] facts.

(** What [replaceAll("\n", " ")] does to one code unit. *)
Definition newlineToSpace (c : N) : N := if (c =? LF)%N then SP else c.

(** ** Values *)

(** [type Message = { id; content; role }]. *)
Module Message.
Record t := { id : jsstring; content : jsstring; role : jsstring }.
End Message.

(** [type PromptParameters = { chatHistory?; question; context }]. *)
Module PromptParameters.
Record t := { chatHistory : option jsstring; question : jsstring; context : jsstring }.
End PromptParameters.

(** [type CustomPrompt = (PromptParameters) => string]. *)
Definition CustomPrompt : Type := PromptParameters.t → jsstring.

(** What an [onChatHistoryFetched] hook can do with the array it is handed:
    leave it in some (possibly mutated) state, and return nothing, that same
    array, or an array of its own. *)
Inductive HookReturn :=
  | RetUndefined
  | RetArgument
  | RetArray (l : list Message.t).

Record HookOutcome := { argumentAfter : list Message.t; returned : HookReturn }.

(** Function values, by what the orchestrator does with them. A [FnCallback]
    is caller code observed only through the fact that it was called. *)
Inductive JsFun :=
  | FnPrompt (f : CustomPrompt)
  | FnHistoryHook (f : list Message.t → HookOutcome)
  | FnCallback (name : N).

(** JavaScript values that travel through the option bags. Numbers are
    rationals: the code passes them on and never computes with them. *)
Inductive JsVal :=
  | JUndefined
  | JNull
  | JBool (b : bool)
  | JNum (q : Q)
  | JStr (s : jsstring)
  | JObject (fields : list (string * jsstring))
  | JFunction (f : JsFun).

(** [ToBoolean]. *)
Definition truthy (v : JsVal) : bool :=
  match v with
  | JUndefined | JNull => false
  | JBool b => b
  | JNum q => negb (Qeq_bool q 0)
  | JStr s => match s with [] => false | _ => true end
  | JObject _ | JFunction _ => true
  end.

Definition nullish (v : JsVal) : bool :=
  match v with JUndefined | JNull => true | _ => false end.

(** [a ?? b]. *)
Definition coalesce (a b : JsVal) : JsVal := if nullish a then b else a.

(** [a && b]. *)
Definition js_and (a b : JsVal) : JsVal := if truthy a then b else a.

(** [!a]. *)
Definition js_not (a : JsVal) : JsVal := JBool (negb (truthy a)).

(** [===] on the values used as session keys; function values have no
    identity in this model and compare unequal. *)
Definition strictEquals (a b : JsVal) : bool :=
  match a, b with
  | JUndefined, JUndefined | JNull, JNull => true
  | JBool x, JBool y => bool_decide (x = y)
  | JNum x, JNum y => Qeq_bool x y
  | JStr x, JStr y => bool_decide (x = y)
  | _, _ => false
  end.

(** ** Objects *)

Abbreviation JsObject := (gmap string JsVal).

(** [o.k]: a missing property reads as [undefined]. *)
Definition prop (o : JsObject) (k : string) : JsVal := default JUndefined (o !! k).

(** [options?.k] where [options] itself may be [undefined]. *)
Definition optProp (options : option JsObject) (k : string) : JsVal :=
  match options with
  | Some o => prop o k
  | None => JUndefined
  end.

(** [{ ...base, k1: v1, ..., kn: vn }]: later properties win. *)
Definition withProps (base : JsObject) (fields : list (string * JsVal)) : JsObject :=
  foldl (λ o kv, <[kv.1 := kv.2]> o) base fields.

(** [{ ...base, ...options }]: every own property of [options] is copied,
    also one whose value is [undefined]; spreading [undefined] copies
    nothing. *)
Definition spread (base : JsObject) (options : option JsObject) : JsObject :=
  default ∅ options ∪ base.

(** ** Constants and configuration *)

(** The module [./constants] is not among the sources; its exports are
    taken as parameters of the development. *)
Record Constants := {
  DEFAULT_CHAT_SESSION_ID : jsstring;
  DEFAULT_CHAT_RATELIMIT_SESSION_ID : jsstring;
  DEFAULT_SIMILARITY_THRESHOLD : Q;
  DEFAULT_TOP_K : Z;
  DEFAULT_HISTORY_LENGTH : Z;
  DEFAULT_HISTORY_TTL : Z;
  DEFAULT_NAMESPACE : jsstring;
  DEFAULT_PROMPT_WITHOUT_RAG : CustomPrompt
}.

(** The fields of [this.config] that the class reads. The class [Config] is
    not among the sources: an instance is taken as it stands after
    [new Config(config)]. *)
Module Config.
Record t := {
  vector : JsVal;
  redis : JsVal;
  model : JsVal;
  ratelimit : JsVal;
  namespace : JsVal;
  metadata : JsVal;
  streaming : JsVal;
  sessionId : JsVal;
  ratelimitSessionId : JsVal;
  prompt : JsVal;
  debug : JsVal
}.
End Config.

Section Options.

Variable K : Constants.

(** [utils.ts], [appendDefaultsIfNeeded]: the defaults, then [...options]. *)
Definition appendDefaultsIfNeeded (options : option JsObject) : JsObject :=
  spread
    (withProps ∅
       [ ("streaming", JBool false);
         ("metadata", JObject []);
         ("disableRAG", JBool false);
         ("sessionId", JStr (DEFAULT_CHAT_SESSION_ID K));
         ("ratelimitSessionId", JStr (DEFAULT_CHAT_RATELIMIT_SESSION_ID K));
         ("similarityThreshold", JNum (DEFAULT_SIMILARITY_THRESHOLD K));
         ("topK", JNum (inject_Z (DEFAULT_TOP_K K)));
         ("historyLength", JNum (inject_Z (DEFAULT_HISTORY_LENGTH K)));
         ("historyTTL", JNum (inject_Z (DEFAULT_HISTORY_TTL K)));
         ("namespace", JStr (DEFAULT_NAMESPACE K)) ])
    options.

(** [RAGChat.getOptionsWithDefaults]. *)
Definition getOptionsWithDefaults (config : Config.t) (options : option JsObject) : JsObject :=
  let isRagDisabledAndPromptFunctionMissing :=
    js_and (optProp options "disableRAG") (js_not (optProp options "promptFn")) in
  appendDefaultsIfNeeded
    (Some
       (withProps (spread ∅ options)
          [ ("metadata", coalesce (optProp options "metadata") (Config.metadata config));
            ("namespace", coalesce (optProp options "namespace") (Config.namespace config));
            ("streaming", coalesce (optProp options "streaming") (Config.streaming config));
            ("sessionId", coalesce (optProp options "sessionId") (Config.sessionId config));
            ("ratelimitSessionId",
              coalesce (optProp options "ratelimitSessionId") (Config.ratelimitSessionId config));
            ("promptFn",
              if truthy isRagDisabledAndPromptFunctionMissing
              then JFunction (FnPrompt (DEFAULT_PROMPT_WITHOUT_RAG K))
              else coalesce (optProp options "promptFn") (Config.prompt config)) ])).

End Options.

(** The fields the spec lists for the resolved options record. *)
Definition recognizedFields : list string :=
  [ "streaming"; "sessionId"; "ratelimitSessionId"; "historyLength"; "historyTTL";
    "similarityThreshold"; "topK"; "namespace"; "metadata"; "disableRAG"; "promptFn" ].

(** ** Errors, collaborator calls and the effect monad *)

(** [{ success, reset }] as returned by the rate limiter. *)
Record RatelimitResponse := { success : bool; reset : option Z }.

(** The error classes the class throws ([UpstashVectorError], [UpstashError],
    [RatelimitUpstashError]), the [TypeError] of calling a value that is
    not a function, and whatever a collaborator throws. *)
Inductive Error :=
  | UpstashVectorError (message : string)
  | UpstashError (message : string)
  | RatelimitUpstashError (message : string) (error : string) (resetTime : option Z)
  | TypeError (message : string)
  | CollaboratorError (service : string) (detail : N).

(** The spec's [ConfigurationError]: the two errors of the constructor. *)
Definition isConfigurationError (e : Error) : bool :=
  match e with
  | UpstashVectorError _ | UpstashError _ => true
  | _ => false
  end.

Inductive Result (A : Type) :=
  | Ok (a : A)
  | Throw (e : Error).
Arguments Ok {A} a.
Arguments Throw {A} e.

(** The [message] argument of [addMessage]: [{ content, metadata?, role }]. *)
Module NewMessage.
Record t := { content : jsstring; metadata : JsVal; role : jsstring }.
End NewMessage.

(** [rag-chat-base.ts]: the argument of [prepareChat] and of
    [vectorService.retrieve], and the result of [prepareChat]. *)
Module VectorPayload.
Record t := {
  question : jsstring;
  similarityThreshold : JsVal;
  topK : JsVal;
  metadataKey : JsVal
}.
End VectorPayload.

Module PrepareChatResult.
Record t := { question : jsstring; facts : jsstring }.
End PrepareChatResult.

(** Every call that leaves the orchestrator, in the order it is made. *)
Inductive Event :=
  | EvNew (service : string)
  | EvRetrieve (payload : VectorPayload.t)
  | EvCheckLimit (ratelimitSessionId : JsVal)
  | EvRatelimitDetails (response : RatelimitResponse)
  | EvAddMessage (sessionId : JsVal) (message : NewMessage.t)
  | EvGetContext (optionsWithDefault : JsObject) (input : jsstring)
  | EvGetMessages (sessionId amount : JsVal)
  | EvChatHistoryFetched (cloned : list Message.t)
  | EvCallLLM (optionsWithDefault : JsObject) (prompt : jsstring)
  | EvChunk (chunk : jsstring)
  | EvDebug (method : string).

(** One appended message of the history store. *)
Record StoreEntry := { entrySession : JsVal; entryId : nat; entryMessage : NewMessage.t }.

(** Arrays live on a heap and are handled by reference; the message records
    in an array are held by value, so an array cell is never shared. *)
Abbreviation Heap := (gmap nat (list Message.t)).

(** The mutable world: the history store (newest entry first) and the
    arrays. *)
Record World := { messages : list StoreEntry; heap : Heap }.

(** A computation returns or throws, changes the world, and logs its calls.
    A throw keeps the world and the log: nothing is rolled back. *)
Definition M (A : Type) : Type := World → Result A * World * list Event.

#[global] Instance M_ret : MRet M := λ A a w, (Ok a, w, []).

#[global] Instance M_bind : MBind M := λ A B k c w,
  match c w with
  | (Ok a, w1, log1) => let '(r, w2, log2) := k a w1 in (r, w2, log1 ++ log2)
  | (Throw e, w1, log1) => (Throw e, w1, log1)
  end.

Definition throw {A} (e : Error) : M A := λ w, (Throw e, w, []).

Definition emit (ev : Event) : M unit := λ w, (Ok (), w, [ev]).

(** [try { body } catch (error) { handler }]. *)
Definition tryCatch {A} (body : M A) (handler : Error → M A) : M A := λ w,
  match body w with
  | (Throw e, w1, log1) => let '(r, w2, log2) := handler e w1 in (r, w2, log1 ++ log2)
  | returned => returned
  end.

(** An awaited call to a collaborator: logged, then its result or throw. *)
Definition call {A} (ev : Event) (r : Result A) : M A := λ w, (r, w, [ev]).

(** [f?.(args)]: skipped for [undefined] and [null], a call for a function,
    a [TypeError] for anything else. *)
Definition optionalCall (f : JsVal) (ev : Event) : M unit :=
  match f with
  | JUndefined | JNull => mret ()
  | JFunction _ => emit ev
  | _ => throw (TypeError "is not a function")
  end.

Definition getWorld : M World := λ w, (Ok w, w, []).

(** [new Array]: a fresh reference. *)
Definition alloc (l : list Message.t) : M nat := λ w,
  let r := fresh (dom (heap w)) in
  (Ok r, {| messages := messages w; heap := <[r := l]> (heap w) |}, []).

Definition readArray (r : nat) : M (list Message.t) := λ w,
  (Ok (default [] (heap w !! r)), w, []).

Definition writeArray (r : nat) (l : list Message.t) : M unit := λ w,
  (Ok (), {| messages := messages w; heap := <[r := l]> (heap w) |}, []).

(** [structuredClone(array)]: a fresh array holding copies of the records. *)
Definition structuredClone (r : nat) : M nat :=
  l ← readArray r; alloc l.

(** [array.reverse()]: reverses in place and returns the same array. *)
Definition reverseInPlace (r : nat) : M nat :=
  l ← readArray r; writeArray r (reverse l);; mret r.

(** ** Collaborators *)

(** What the model does with a prompt: the chunks it produces, and whether
    it then completes or fails. *)
Record ModelRun := { chunks : list jsstring; failure : option Error }.

(** The services behind the fields of the class. [RateLimitService],
    [ContextService], [HistoryService] and [LLMService] are not among the
    sources; their answers are parameters. The history read is given the
    store it reads from. *)
Record Services := {
  checkLimit : JsVal → Result RatelimitResponse;
  getContext : JsObject → jsstring → Result jsstring;
  getMessages : list StoreEntry → JsVal → JsVal → Result (list Message.t);
  runModel : JsObject → jsstring → ModelRun
}.

(** Modelled from the spec: [HistoryService.addMessage] is not among the
    sources. The spec gives [addMessage({sessionId, message}) -> void] on a
    per-session ordered log with no error in normal operation: the message
    is appended to the store. *)
Definition addMessage (message : NewMessage.t) (sessionId : JsVal) : M unit := λ w,
  (Ok (),
   {| messages :=
        {| entrySession := sessionId; entryId := length (messages w);
           entryMessage := message |} :: messages w;
      heap := heap w |},
   [EvAddMessage sessionId message]).

Definition entryToMessage (e : StoreEntry) : Message.t :=
  {| Message.id := js (pretty (entryId e));
     Message.content := NewMessage.content (entryMessage e);
     Message.role := NewMessage.role (entryMessage e) |}.

(** Modelled from the spec: the in-memory backend of
    [HistoryService.getMessages] is not among the sources. The spec gives
    [getMessages({sessionId, amount})] as the most recent [amount] messages
    of the session, newest first. An [amount] that is not a number bounds
    nothing. *)
Definition inMemoryGetMessages (store : list StoreEntry) (sessionId amount : JsVal)
  : Result (list Message.t) :=
  let session := filter (λ e, strictEquals (entrySession e) sessionId = true) store in
  Ok (entryToMessage <$>
        match amount with
        | JNum q => take (Z.to_nat (Qfloor q)) session
        | _ => session
        end).

(** A stream handed back to the caller: the chunks still to be pulled, how
    the source ends, and the lifecycle hooks to fire while it is drained. *)
Record Stream := {
  pending : list jsstring;
  ending : option Error;
  onChunk : JsVal;
  onComplete : jsstring → M unit
}.

(** [{ output, isStream }]. *)
Inductive ChatReturn :=
  | TextOutput (output : jsstring)
  | StreamOutput (output : Stream).

Definition isStream (r : ChatReturn) : bool :=
  match r with TextOutput _ => false | StreamOutput _ => true end.

(** [onChunk] is fire-and-forget: called when it is a function, and never
    able to abort the stream. *)
Fixpoint deliver (onChunk : JsVal) (chunks : list jsstring) : M unit :=
  match chunks with
  | [] => mret ()
  | c :: r =>
      match onChunk with JFunction _ => emit (EvChunk c) | _ => mret () end;;
      deliver onChunk r
  end.

(** Modelled from the spec: the caller draining a stream to exhaustion.
    Each chunk fires [onChunk]; when the source is exhausted [onComplete]
    is invoked once with the concatenated text; a failing source
    propagates its error. *)
Definition consume (s : Stream) : M jsstring :=
  deliver (onChunk s) (pending s);;
  match ending s with
  | Some e => throw e
  | None => onComplete s (concat (pending s));; mret (concat (pending s))
  end.

(** ** The class [RAGChat] *)

(** The fields of an instance: the four services, the configuration, and
    whether a debug logger was created. *)
Module RAGChat.
Record t := {
  ratelimit : JsVal → Result RatelimitResponse;
  llm : JsObject → jsstring → ModelRun;
  context : JsObject → jsstring → Result jsstring;
  history : list StoreEntry → JsVal → JsVal → Result (list Message.t);
  config : Config.t;
  debug : bool
}.
End RAGChat.

(** [RAGChat.constructor], from the point where [this.config] holds the
    result of [new Config(config)]: the two guards, then the services. *)
Definition constructor (services : Services) (config : Config.t) : M RAGChat.t :=
  if negb (truthy (Config.vector config)) then
    throw (UpstashVectorError "Vector can not be undefined!")
  else if negb (truthy (Config.model config)) then
    throw (UpstashError "Model can not be undefined!")
  else
    emit (EvNew "Database");;
    emit (EvNew "HistoryService");;
    emit (EvNew "LLMService");;
    emit (EvNew "ContextService");;
    (if truthy (Config.debug config) then emit (EvNew "ChatLogger") else mret ());;
    emit (EvNew "RateLimitService");;
    mret {| RAGChat.ratelimit := checkLimit services;
            RAGChat.llm := runModel services;
            RAGChat.context := getContext services;
            RAGChat.history := getMessages services;
            RAGChat.config := config;
            RAGChat.debug := truthy (Config.debug config) |}.

(** One rendered line of the chat history. *)
Definition renderMessage (message : Message.t) : jsstring :=
  if bool_decide (Message.role message = js "user")
  then js "USER MESSAGE: " ++ Message.content message
  else js "YOUR MESSAGE: " ++ Message.content message.

(** [RAGChatBase.prepareChat]; [retrieve] is [this.vectorService.retrieve]. *)
Definition prepareChat (retrieve : VectorPayload.t → Result jsstring)
    (payload : VectorPayload.t) : M PrepareChatResult.t :=
  let question := sanitizeQuestion (VectorPayload.question payload) in
  let query :=
    {| VectorPayload.question := question;
       VectorPayload.similarityThreshold := VectorPayload.similarityThreshold payload;
       VectorPayload.metadataKey := VectorPayload.metadataKey payload;
       VectorPayload.topK := VectorPayload.topK payload |} in
  facts ← call (EvRetrieve query) (retrieve query);
  mret {| PrepareChatResult.question := question; PrepareChatResult.facts := facts |}.

Section Methods.

Variable K : Constants.
Variable this : RAGChat.t.

(** [this.debug?.method(...)]. *)
Definition debugCall (method : string) : M unit :=
  if RAGChat.debug this then emit (EvDebug method) else mret ().

(** [RAGChat.checkRatelimit]. *)
Definition checkRatelimit (optionsWithDefault : JsObject) : M unit :=
  ratelimitResponse ←
    call (EvCheckLimit (prop optionsWithDefault "ratelimitSessionId"))
         (RAGChat.ratelimit this (prop optionsWithDefault "ratelimitSessionId"));
  optionalCall (prop optionsWithDefault "ratelimitDetails")
               (EvRatelimitDetails ratelimitResponse);;
  if negb (success ratelimitResponse) then
    throw (RatelimitUpstashError "Couldn't process chat due to ratelimit."
             "ERR:USER_RATELIMITED" (reset ratelimitResponse))
  else mret ().

(** [RAGChat.addUserMessageToHistory]: the message literal has no
    [metadata] property. *)
Definition addUserMessageToHistory (input : jsstring) (optionsWithDefault : JsObject) : M unit :=
  addMessage
    {| NewMessage.content := input; NewMessage.metadata := JUndefined;
       NewMessage.role := js "user" |}
    (prop optionsWithDefault "sessionId").

(** [await optionsWithDefault.onChatHistoryFetched?.(clonedChatHistory)]:
    the array the hook returns, if any. The hook acts on the array it is
    given and on nothing else. *)
Definition callHistoryHook (hook : JsVal) (clonedChatHistory : nat) : M (option nat) :=
  match hook with
  | JUndefined | JNull => mret None
  | JFunction (FnHistoryHook f) =>
      argument ← readArray clonedChatHistory;
      emit (EvChatHistoryFetched argument);;
      writeArray clonedChatHistory (argumentAfter (f argument));;
      match returned (f argument) with
      | RetUndefined => mret None
      | RetArgument => mret (Some clonedChatHistory)
      | RetArray l => r ← alloc l; mret (Some r)
      end
  | JFunction (FnCallback _) =>
      argument ← readArray clonedChatHistory;
      emit (EvChatHistoryFetched argument);;
      mret None
  | _ => throw (TypeError "onChatHistoryFetched does not return an array")
  end.

(** [RAGChat.getChatHistory]. *)
Definition getChatHistory (optionsWithDefault : JsObject) : M jsstring :=
  debugCall "startRetrieveHistory";;
  w ← getWorld;
  fetched ←
    call (EvGetMessages (prop optionsWithDefault "sessionId")
                        (prop optionsWithDefault "historyLength"))
         (RAGChat.history this (messages w) (prop optionsWithDefault "sessionId")
                          (prop optionsWithDefault "historyLength"));
  originalChatHistory ← alloc fetched;
  clonedChatHistory ← structuredClone originalChatHistory;
  hooked ← callHistoryHook (prop optionsWithDefault "onChatHistoryFetched") clonedChatHistory;
  let modifiedChatHistory := default originalChatHistory hooked in
  debugCall "endRetrieveHistory";;
  reversed ← reverseInPlace modifiedChatHistory;
  lines ← readArray reversed;
  let formattedHistory := join [LF] (renderMessage <$> lines) in
  debugCall "logRetrieveFormatHistory";;
  mret formattedHistory.

(** [RAGChat.generatePrompt]. *)
Definition generatePrompt (optionsWithDefault : JsObject)
    (context question formattedHistory : jsstring) : M jsstring :=
  prompt ←
    match prop optionsWithDefault "promptFn" with
    | JFunction (FnPrompt promptFn) =>
        mret (promptFn {| PromptParameters.context := context;
                          PromptParameters.question := question;
                          PromptParameters.chatHistory := Some formattedHistory |})
    | _ => throw (TypeError "optionsWithDefault.promptFn does not return a string")
    end;
  debugCall "logFinalPrompt";;
  mret prompt.

(** The [onComplete] hook that [chat] hands to [callLLM]. *)
Definition onCompleteOfChat (optionsWithDefault : JsObject) (output : jsstring) : M unit :=
  debugCall "endLLMResponse";;
  addMessage
    {| NewMessage.content := output;
       NewMessage.metadata := prop optionsWithDefault "metadata";
       NewMessage.role := js "assistant" |}
    (prop optionsWithDefault "sessionId").

(** Modelled from the spec: [LLMService.callLLM] is not among the sources.
    The spec gives two modes selected by [options.streaming]. Without
    streaming the call awaits the model, invokes [onComplete(output)] once
    and returns the full text; a model error propagates. With streaming it
    returns at once with the lazily produced stream. *)
Definition callLLM (optionsWithDefault : JsObject) (prompt : jsstring)
    (options : option JsObject)
    (onChunk : JsVal) (onComplete : jsstring → M unit) : M ChatReturn :=
  emit (EvCallLLM optionsWithDefault prompt);;
  let run := RAGChat.llm this optionsWithDefault prompt in
  if truthy (prop optionsWithDefault "streaming") then
    mret (StreamOutput {| pending := chunks run; ending := failure run;
                          onChunk := onChunk; onComplete := onComplete |})
  else
    match failure run with
    | Some e => throw e
    | None =>
        onComplete (concat (chunks run));;
        mret (TextOutput (concat (chunks run)))
    end.

(** The awaited steps of [chat], inside its [try]. *)
Definition prepare (input : jsstring) (options : option JsObject) : M (JsObject * jsstring) :=
  let optionsWithDefault := getOptionsWithDefaults K (RAGChat.config this) options in
  checkRatelimit optionsWithDefault;;
  addUserMessageToHistory input optionsWithDefault;;
  let question := sanitizeQuestion input in
  context ←
    call (EvGetContext optionsWithDefault input)
         (RAGChat.context this optionsWithDefault input);
  formattedHistory ← getChatHistory optionsWithDefault;
  prompt ← generatePrompt optionsWithDefault context question formattedHistory;
  mret (optionsWithDefault, prompt).

(** [RAGChat.chat]. The steps up to the prompt are awaited inside the
    [try]; the promise of [callLLM] is returned without [await], so what
    it rejects with reaches the caller without passing the [catch]. *)
Definition chat (input : jsstring) (options : option JsObject) : M ChatReturn :=
  '(optionsWithDefault, prompt) ←
    tryCatch (prepare input options)
             (λ error, debugCall "logError";; throw error);
  callLLM optionsWithDefault prompt options
          (prop optionsWithDefault "onChunk")
          (onCompleteOfChat optionsWithDefault).

End Methods.

(** ** Vocabulary of the statements *)

Definition isFunction (v : JsVal) : bool :=
  match v with JFunction _ => true | _ => false end.

(** A callback property as its type allows it: a function, or missing. *)
Definition callableOrMissing (v : JsVal) : bool :=
  match v with JUndefined | JNull | JFunction _ => true | _ => false end.

(** Calls that neither write to the history store nor invoke the model. *)
Definition quietEvent (ev : Event) : bool :=
  match ev with EvAddMessage _ _ | EvCallLLM _ _ => false | _ => true end.

(** A computation that leaves the history store alone and makes only quiet
    calls. *)
Definition quiet {A} (c : M A) : Prop :=
  ∀ w, messages (c w).1.2 = messages w
       ∧ Forall (λ ev, quietEvent ev = true) (c w).2.

(** The messages appended to the history store by a log of calls. *)
Definition appends (log : list Event) : list (JsVal * NewMessage.t) :=
  omap (λ ev, match ev with EvAddMessage sid m => Some (sid, m) | _ => None end) log.

(** The questions handed to the context retriever by a log of calls. *)
Definition retrievalInputs (log : list Event) : list jsstring :=
  omap (λ ev, match ev with EvGetContext _ q => Some q | _ => None end) log.

(** The model invocations in a log of calls. *)
Definition modelCalls (log : list Event) : list (JsObject * jsstring) :=
  omap (λ ev, match ev with EvCallLLM o p => Some (o, p) | _ => None end) log.

(** The user turn that [chat] records for [input]. *)
Definition userTurn (input : jsstring) : NewMessage.t :=
  {| NewMessage.content := input; NewMessage.metadata := JUndefined;
     NewMessage.role := js "user" |}.

(** The assistant turn that [chat] records for the model's [output]. *)
Definition assistantTurn (optionsWithDefault : JsObject) (output : jsstring) : NewMessage.t :=
  {| NewMessage.content := output;
     NewMessage.metadata := prop optionsWithDefault "metadata";
     NewMessage.role := js "assistant" |}.

(** The store after one more append. *)
Definition appended (sessionId : JsVal) (message : NewMessage.t) (w : World) : World :=
  {| messages :=
       {| entrySession := sessionId; entryId := length (messages w);
          entryMessage := message |} :: messages w;
     heap := heap w |}.

(** The rendering of a message sequence read newest first. *)
Definition formatHistory (l : list Message.t) : jsstring :=
  join [LF] (renderMessage <$> reverse l).

(** The prefix of a rendered line. *)
Definition linePrefix (message : Message.t) : jsstring :=
  if bool_decide (Message.role message = js "user")
  then js "USER MESSAGE: " else js "YOUR MESSAGE: ".

(** A history backend that returns at most [amount] messages. *)
Definition honoursAmount
    (read : list StoreEntry → JsVal → JsVal → Result (list Message.t)) : Prop :=
  ∀ store sessionId q l,
    read store sessionId (JNum q) = Ok l → length l ≤ Z.to_nat (Qfloor q).

(** What the [onChatHistoryFetched] property amounts to for a fetched
    sequence: the state in which the array handed to it is left, what comes
    back, and whether anything was called; [None] when the property cannot
    be used as a hook. *)
Definition hookEffect (hook : JsVal) (fetched : list Message.t)
  : option (list Message.t * HookReturn * bool) :=
  match hook with
  | JUndefined | JNull => Some (fetched, RetUndefined, false)
  | JFunction (FnHistoryHook f) =>
      Some (argumentAfter (f fetched), returned (f fetched), true)
  | JFunction (FnCallback _) => Some (fetched, RetUndefined, true)
  | _ => None
  end.

(** The sequence that is formatted: what the hook returned, or else the
    fetched one. *)
Definition sequenceToFormat (fetched after : list Message.t) (ret : HookReturn)
  : list Message.t :=
  match ret with
  | RetUndefined => fetched
  | RetArgument => after
  | RetArray l => l
  end.

(** The hook leaves the fetched sequence in charge: it is missing, or it
    returns nothing. *)
Definition keepsFetched (hook : JsVal) (fetched : list Message.t) : bool :=
  match hookEffect hook fetched with
  | Some (_, RetUndefined, _) => true
  | _ => false
  end.

(** C7 as the spec states it, for one call of [getChatHistory]: what is
    returned is the rendering of the fetched sequence, and that sequence
    has at most [historyLength] messages. *)
Definition historyFormattingAsStated
    (this : RAGChat.t) (optionsWithDefault : JsObject) (w : World) : Prop :=
  ∀ fetched (n : nat),
    RAGChat.history this (messages w) (prop optionsWithDefault "sessionId")
                    (prop optionsWithDefault "historyLength") = Ok fetched →
    prop optionsWithDefault "historyLength" = JNum (inject_Z (Z.of_nat n)) →
    (getChatHistory this optionsWithDefault w).1.1 = Ok (formatHistory fetched)
    ∧ length fetched ≤ n.

(** ** Concrete instances for the examples *)

(** The defaults documented in [types.ts] ([@default] of [sessionId],
    [ratelimitSessionId], [similarityThreshold], [topK], [historyLength],
    [historyTTL]); the namespace and the prompt are stand-ins. *)
Definition documentedConstants : Constants :=
  {| DEFAULT_CHAT_SESSION_ID := js "upstash-rag-chat-session";
     DEFAULT_CHAT_RATELIMIT_SESSION_ID := js "upstash-rag-chat-ratelimit-session";
     DEFAULT_SIMILARITY_THRESHOLD := Qmake 1 2;
     DEFAULT_TOP_K := 5;
     DEFAULT_HISTORY_LENGTH := 5;
     DEFAULT_HISTORY_TTL := 86400;
     DEFAULT_NAMESPACE := js "default";
     DEFAULT_PROMPT_WITHOUT_RAG := λ p, js "Question: " ++ PromptParameters.question p |}.

Definition ragPrompt : CustomPrompt :=
  λ p, js "Context: " ++ PromptParameters.context p ++ js " History: "
       ++ default [] (PromptParameters.chatHistory p)
       ++ js " Question: " ++ PromptParameters.question p.

(** A configuration with a vector index, a model and a prompt, and nothing
    else set. *)
Definition bareConfig : Config.t :=
  {| Config.vector := JObject []; Config.redis := JUndefined; Config.model := JObject [];
     Config.ratelimit := JUndefined; Config.namespace := JUndefined;
     Config.metadata := JUndefined; Config.streaming := JUndefined;
     Config.sessionId := JUndefined; Config.ratelimitSessionId := JUndefined;
     Config.prompt := JFunction (FnPrompt ragPrompt); Config.debug := JUndefined |}.

(** The same without a model. *)
Definition modellessConfig : Config.t :=
  {| Config.vector := JObject []; Config.redis := JUndefined; Config.model := JUndefined;
     Config.ratelimit := JUndefined; Config.namespace := JUndefined;
     Config.metadata := JUndefined; Config.streaming := JUndefined;
     Config.sessionId := JUndefined; Config.ratelimitSessionId := JUndefined;
     Config.prompt := JFunction (FnPrompt ragPrompt); Config.debug := JUndefined |}.

Definition allowAll : JsVal → Result RatelimitResponse :=
  λ _, Ok {| success := true; reset := None |}.

Definition denyAll : JsVal → Result RatelimitResponse :=
  λ _, Ok {| success := false; reset := Some 1700000000%Z |}.

Definition noContext : JsObject → jsstring → Result jsstring := λ _ _, Ok [].

Definition brokenRetriever : JsObject → jsstring → Result jsstring :=
  λ _ _, Throw (CollaboratorError "vector" 1).

Definition twoChunkModel : JsObject → jsstring → ModelRun :=
  λ _ _, {| chunks := [js "An"; js "kara"]; failure := None |}.

Definition instanceWith
    (ratelimit : JsVal → Result RatelimitResponse)
    (context : JsObject → jsstring → Result jsstring)
    (llm : JsObject → jsstring → ModelRun) : RAGChat.t :=
  {| RAGChat.ratelimit := ratelimit; RAGChat.llm := llm; RAGChat.context := context;
     RAGChat.history := inMemoryGetMessages; RAGChat.config := bareConfig;
     RAGChat.debug := false |}.

Definition emptyWorld : World := {| messages := []; heap := ∅ |}.

Definition twoLineInput : jsstring := js "hello" ++ [LF] ++ js "world".

(** A store holding one exchange of session "s", and a third message. *)
Definition conversationWorld : World :=
  appended (JStr (js "s"))
    {| NewMessage.content := js "and Italy?"; NewMessage.metadata := JUndefined;
       NewMessage.role := js "user" |}
    (appended (JStr (js "s"))
       {| NewMessage.content := js "Ankara"; NewMessage.metadata := JObject [];
          NewMessage.role := js "assistant" |}
       (appended (JStr (js "s")) (userTurn (js "capital of Turkey?")) emptyWorld)).

(** Resolved options for session "s" with a history length and a hook. *)
Definition historyOptions (historyLength : Z) (hook : JsVal) : JsObject :=
  getOptionsWithDefaults documentedConstants bareConfig
    (Some (withProps ∅ [ ("sessionId", JStr (js "s"));
                         ("historyLength", JNum (inject_Z historyLength));
                         ("onChatHistoryFetched", hook) ])).

(** A hook that hands back the fetched messages twice over. *)
Definition paddingHook : JsVal :=
  JFunction (FnHistoryHook (λ l, {| argumentAfter := l; returned := RetArray (l ++ l) |})).

(** A hook that blanks the content of every message it is given and
    returns nothing. *)
Definition blankingHook : JsVal :=
  JFunction (FnHistoryHook (λ l,
    {| argumentAfter :=
         (λ m, {| Message.id := Message.id m; Message.content := [];
                  Message.role := Message.role m |}) <$> l;
       returned := RetUndefined |})).

(** ** Further code of [utils.ts] *)

(** A [BaseMessage] of the chaining framework as [formatChatHistory] reads
    it: the answer of [_getType()] and the [content], taken as the string
    that the template literal makes of it. *)
Module BaseMessage.
Record t := { _getType : jsstring; content : jsstring }.
End BaseMessage.

(** [utils.ts], [formatChatHistory]. *)
Definition formatChatHistory (chatHistory : list BaseMessage.t) : jsstring :=
  let formattedDialogueTurns :=
    (λ dialogueTurn,
       if bool_decide (BaseMessage._getType dialogueTurn = js "human")
       then js "Human: " ++ BaseMessage.content dialogueTurn
       else js "Assistant: " ++ BaseMessage.content dialogueTurn) <$> chatHistory in
  formatFacts formattedDialogueTurns.

(** The keys that [appendDefaultsIfNeeded] gives a default. *)
Definition defaultedKeys : list string :=
  [ "streaming"; "metadata"; "disableRAG"; "sessionId"; "ratelimitSessionId";
    "similarityThreshold"; "topK"; "historyLength"; "historyTTL"; "namespace" ].

(** The keys that [getOptionsWithDefaults] writes itself. *)
Definition writtenKeys : list string :=
  [ "metadata"; "namespace"; "streaming"; "sessionId"; "ratelimitSessionId"; "promptFn" ].

(** The field of the configuration behind a key that
    [getOptionsWithDefaults] resolves against it. *)
Definition configField (config : Config.t) (k : string) : option JsVal :=
  if bool_decide (k = "metadata") then Some (Config.metadata config)
  else if bool_decide (k = "namespace") then Some (Config.namespace config)
  else if bool_decide (k = "streaming") then Some (Config.streaming config)
  else if bool_decide (k = "sessionId") then Some (Config.sessionId config)
  else if bool_decide (k = "ratelimitSessionId") then Some (Config.ratelimitSessionId config)
  else None.

(** The default that [appendDefaultsIfNeeded] lists for a key. *)
Definition globalDefault (K : Constants) (k : string) : option JsVal :=
  if bool_decide (k = "streaming") then Some (JBool false)
  else if bool_decide (k = "metadata") then Some (JObject [])
  else if bool_decide (k = "disableRAG") then Some (JBool false)
  else if bool_decide (k = "sessionId") then Some (JStr (DEFAULT_CHAT_SESSION_ID K))
  else if bool_decide (k = "ratelimitSessionId")
       then Some (JStr (DEFAULT_CHAT_RATELIMIT_SESSION_ID K))
  else if bool_decide (k = "similarityThreshold")
       then Some (JNum (DEFAULT_SIMILARITY_THRESHOLD K))
  else if bool_decide (k = "topK") then Some (JNum (inject_Z (DEFAULT_TOP_K K)))
  else if bool_decide (k = "historyLength")
       then Some (JNum (inject_Z (DEFAULT_HISTORY_LENGTH K)))
  else if bool_decide (k = "historyTTL") then Some (JNum (inject_Z (DEFAULT_HISTORY_TTL K)))
  else if bool_decide (k = "namespace") then Some (JStr (DEFAULT_NAMESPACE K))
  else None.

(** The answers handed to [ratelimitDetails] in a log of calls. *)
Definition detailsCalls (log : list Event) : list RatelimitResponse :=
  omap (λ ev, match ev with EvRatelimitDetails response => Some response | _ => None end) log.

(** A history backend that is down, and an instance reading from it. *)
Definition brokenHistory : list StoreEntry → JsVal → JsVal → Result (list Message.t) :=
  λ _ _ _, Throw (CollaboratorError "redis" 2).

Definition brokenHistoryInstance : RAGChat.t :=
  {| RAGChat.ratelimit := allowAll; RAGChat.llm := twoChunkModel;
     RAGChat.context := noContext; RAGChat.history := brokenHistory;
     RAGChat.config := bareConfig; RAGChat.debug := true |}.

(* ------------------------------------------------------------------ *)
(** * Theorems *)

(** ** Sanitization *)

Section Sanitize.

Implicit Types s x : jsstring.

Lemma replaceAll_newline s : replaceAll [LF] [SP] s = newlineToSpace <$> s.
Proof.
  unfold replaceAll. induction s as [|c r IH]; [done|].
  cbn [replaceAll_from startsWith length Nat.sub fmap list_fmap]. unfold newlineToSpace at 1.
  rewrite N.eqb_sym. destruct (c =? LF)%N; cbn; by rewrite IH.
Qed.

Lemma isWhiteSpace_LF : isWhiteSpace LF = true.
Proof. reflexivity. Qed.

(** TAB, CR, NBSP, EM SPACE and the byte order mark are stripped by [trim];
    NEL and ZERO WIDTH SPACE are not. *)
Example isWhiteSpace_samples :
  isWhiteSpace <$> [9; 13; 160; 8195; 65279; 133; 8203]%N
  = [true; true; true; true; true; false; false].
Proof. reflexivity. Qed.

Lemma newlineToSpace_nonws c : isWhiteSpace c = false → newlineToSpace c = c.
Proof.
  intros H. unfold newlineToSpace. destruct (N.eqb_spec c LF) as [->|]; [|done].
  by rewrite isWhiteSpace_LF in H.
Qed.

Lemma trimStart_split s :
  ∃ pre, s = pre ++ trimStart s ∧ Forall (λ c, isWhiteSpace c = true) pre.
Proof.
  induction s as [|c r [pre [E F]]]; [by exists []|].
  cbn. destruct (isWhiteSpace c) eqn:W.
  - exists (c :: pre). split; [by rewrite E at 1|by constructor].
  - by exists [].
Qed.

Lemma trimStart_head s c : head (trimStart s) = Some c → isWhiteSpace c = false.
Proof.
  induction s as [|d r IH]; [done|]. cbn.
  destruct (isWhiteSpace d) eqn:W; [done|]. cbn. by intros [= <-].
Qed.

Lemma trimStart_app_nonws a c b :
  isWhiteSpace c = false → trimStart (a ++ c :: b) = trimStart a ++ c :: b.
Proof.
  intros W. induction a as [|d a IH]; cbn; [by rewrite W|].
  by destruct (isWhiteSpace d).
Qed.

Lemma trimStart_id s :
  (∀ c, head s = Some c → isWhiteSpace c = false) → trimStart s = s.
Proof. destruct s as [|c r]; [done|]. intros H. cbn. by rewrite (H c). Qed.

Lemma trimEnd_split s :
  ∃ suf, s = trimEnd s ++ suf ∧ Forall (λ c, isWhiteSpace c = true) suf.
Proof.
  unfold trimEnd. destruct (trimStart_split (reverse s)) as [pre [E F]].
  exists (reverse pre). split.
  - rewrite <- reverse_app, <- E. by rewrite reverse_involutive.
  - by apply Forall_reverse.
Qed.

Lemma trimEnd_last s c : last (trimEnd s) = Some c → isWhiteSpace c = false.
Proof.
  unfold trimEnd. rewrite last_reverse. apply trimStart_head.
Qed.

Lemma trimEnd_cons_nonws c r :
  isWhiteSpace c = false → trimEnd (c :: r) = c :: trimEnd r.
Proof.
  intros W. unfold trimEnd. rewrite reverse_cons.
  rewrite trimStart_app_nonws by done. by rewrite reverse_app.
Qed.

Lemma trimEnd_head s c :
  (∀ d, head s = Some d → isWhiteSpace d = false) →
  head (trimEnd s) = Some c → isWhiteSpace c = false.
Proof.
  destruct s as [|d r]; [done|]. intros H.
  rewrite trimEnd_cons_nonws by by apply H. cbn. intros [= <-]. by apply H.
Qed.

Lemma trimEnd_id s :
  (∀ c, last s = Some c → isWhiteSpace c = false) → trimEnd s = s.
Proof.
  intros H. unfold trimEnd. rewrite trimStart_id; [apply reverse_involutive|].
  intros c. rewrite head_reverse. apply H.
Qed.

Lemma trim_head s c : head (trim s) = Some c → isWhiteSpace c = false.
Proof. apply trimEnd_head, trimStart_head. Qed.

Lemma trim_last s c : last (trim s) = Some c → isWhiteSpace c = false.
Proof. apply trimEnd_last. Qed.

Lemma trim_split s :
  ∃ pre suf, s = pre ++ trim s ++ suf
    ∧ Forall (λ c, isWhiteSpace c = true) pre
    ∧ Forall (λ c, isWhiteSpace c = true) suf.
Proof.
  destruct (trimStart_split s) as [pre [E1 F1]].
  destruct (trimEnd_split (trimStart s)) as [suf [E2 F2]].
  exists pre, suf. unfold trim. by rewrite <- E2.
Qed.

Lemma trim_fixed s :
  (∀ c, head s = Some c → isWhiteSpace c = false) →
  (∀ c, last s = Some c → isWhiteSpace c = false) →
  trim s = s.
Proof. intros Hh Hl. unfold trim. rewrite trimStart_id by done. by apply trimEnd_id. Qed.

Lemma sanitize_head x c :
  head (sanitizeQuestion x) = Some c → isWhiteSpace c = false.
Proof.
  unfold sanitizeQuestion. rewrite replaceAll_newline.
  destruct (trim x) as [|d r] eqn:E; [done|]. cbn. intros [= <-].
  assert (isWhiteSpace d = false) as W by (apply (trim_head x); by rewrite E).
  by rewrite newlineToSpace_nonws.
Qed.

Lemma sanitize_last x c :
  last (sanitizeQuestion x) = Some c → isWhiteSpace c = false.
Proof.
  unfold sanitizeQuestion. rewrite replaceAll_newline.
  rewrite fmap_last. destruct (last (trim x)) as [d|] eqn:E; [|done].
  cbn. intros [= <-]. pose proof (trim_last x d E) as W.
  by rewrite newlineToSpace_nonws.
Qed.

End Sanitize.

(** ** Option resolution *)

Section OptionResolution.

Variable K : Constants.
Implicit Types (o : JsObject) (options : option JsObject) (config : Config.t).

Lemma prop_lookup o k v : o !! k = Some v → prop o k = v.
Proof. unfold prop. by intros ->. Qed.

(** A property that the argument of [appendDefaultsIfNeeded] owns is
    taken from it, whatever its value. *)
Lemma appendDefaults_own o k v :
  o !! k = Some v → prop (appendDefaultsIfNeeded K (Some o)) k = v.
Proof.
  intros H. apply prop_lookup. unfold appendDefaultsIfNeeded, spread. cbn [default].
  by apply lookup_union_Some_l.
Qed.

(** The six properties that [getOptionsWithDefaults] writes are own
    properties of the object it hands to [appendDefaultsIfNeeded]. *)
Lemma resolved_promptFn config options :
  prop (getOptionsWithDefaults K config options) "promptFn" =
    if truthy (js_and (optProp options "disableRAG") (js_not (optProp options "promptFn")))
    then JFunction (FnPrompt (DEFAULT_PROMPT_WITHOUT_RAG K))
    else coalesce (optProp options "promptFn") (Config.prompt config).
Proof.
  unfold getOptionsWithDefaults. apply appendDefaults_own.
  cbn [withProps foldl fst snd]. apply lookup_insert_eq.
Qed.

Lemma resolved_namespace config options :
  prop (getOptionsWithDefaults K config options) "namespace" =
    coalesce (optProp options "namespace") (Config.namespace config).
Proof.
  unfold getOptionsWithDefaults. apply appendDefaults_own.
  cbn [withProps foldl fst snd]. by simplify_map_eq.
Qed.

Lemma resolved_sessionId config options :
  prop (getOptionsWithDefaults K config options) "sessionId" =
    coalesce (optProp options "sessionId") (Config.sessionId config).
Proof.
  unfold getOptionsWithDefaults. apply appendDefaults_own.
  cbn [withProps foldl fst snd]. by simplify_map_eq.
Qed.

Lemma resolved_metadata config options :
  prop (getOptionsWithDefaults K config options) "metadata" =
    coalesce (optProp options "metadata") (Config.metadata config).
Proof.
  unfold getOptionsWithDefaults. apply appendDefaults_own.
  cbn [withProps foldl fst snd]. by simplify_map_eq.
Qed.

(** The callbacks are not touched by the resolution: they are read from
    the call-site options. *)
Lemma resolved_callback config options k :
  k ∈ ["ratelimitDetails"; "onChatHistoryFetched"; "onChunk"; "onContextFetched"] →
  prop (getOptionsWithDefaults K config options) k = optProp options k.
Proof.
  intros Hk. unfold getOptionsWithDefaults, appendDefaultsIfNeeded, spread, prop.
  cbn [withProps foldl fst snd default].
  rewrite lookup_union.
  repeat (apply elem_of_cons in Hk as [->|Hk]); [..|by apply elem_of_nil in Hk].
  all: simplify_map_eq.
  all: rewrite (right_id_L ∅ (∪)); by destruct options.
Qed.

(** With no call-site options, an unset [namespace] or [sessionId] of the
    configuration is what the resolution returns: the global default does
    not come into play. *)
Lemma unset_config_field_stays_undefined config :
  (Config.namespace config = JUndefined →
   prop (getOptionsWithDefaults K config None) "namespace" = JUndefined)
  ∧ (Config.sessionId config = JUndefined →
     prop (getOptionsWithDefaults K config None) "sessionId" = JUndefined).
Proof.
  split; intros H; [rewrite resolved_namespace|rewrite resolved_sessionId];
    cbn [optProp coalesce nullish]; exact H.
Qed.

End OptionResolution.

(** C4, at a failing input. With no call-site options and a configuration
    that sets no namespace and no session id, the resolved [namespace] and
    [sessionId] are [undefined], not the global defaults:
    [getOptionsWithDefaults] always writes these keys, and the spread in
    [appendDefaultsIfNeeded] lets an own property holding [undefined]
    override the default. A call-site [historyLength: undefined] does the
    same to [historyLength]. *)
Lemma resolution_leaves_fields_undefined :
  prop (getOptionsWithDefaults documentedConstants bareConfig None) "namespace" = JUndefined
  ∧ prop (getOptionsWithDefaults documentedConstants bareConfig None) "sessionId" = JUndefined
  ∧ prop (getOptionsWithDefaults documentedConstants bareConfig
            (Some {["historyLength" := JUndefined]})) "historyLength" = JUndefined
  ∧ "namespace" ∈ recognizedFields ∧ "sessionId" ∈ recognizedFields
  ∧ "historyLength" ∈ recognizedFields.
Proof.
  repeat split; try (vm_compute; reflexivity); unfold recognizedFields; set_solver.
Qed.

(** C5. When the call-site options have [disableRAG = true] and no
    [promptFn], the resolved [promptFn] is the no-context template
    [DEFAULT_PROMPT_WITHOUT_RAG], for every configuration and so whatever
    the configured (RAG) prompt is; when a [promptFn] is supplied, the
    resolved [promptFn] is that function. *)
Theorem promptFn_resolution (K : Constants) (config : Config.t) (o : JsObject) :
  (prop o "disableRAG" = JBool true → prop o "promptFn" = JUndefined →
   prop (getOptionsWithDefaults K config (Some o)) "promptFn"
     = JFunction (FnPrompt (DEFAULT_PROMPT_WITHOUT_RAG K)))
  ∧ (∀ f, prop o "promptFn" = JFunction f →
     prop (getOptionsWithDefaults K config (Some o)) "promptFn" = JFunction f).
Proof.
  split.
  - intros Hd Hp. rewrite resolved_promptFn. cbn [optProp]. by rewrite Hd, Hp.
  - intros f Hp. rewrite resolved_promptFn. cbn [optProp]. rewrite Hp.
    unfold js_and, js_not. cbn [truthy negb coalesce nullish].
    destruct (truthy (prop o "disableRAG")) eqn:E; cbn [truthy negb]; by rewrite ?E.
Qed.

Lemma promptFn_resolution_witness :
  prop (getOptionsWithDefaults documentedConstants bareConfig
          (Some {["disableRAG" := JBool true]})) "promptFn"
    = JFunction (FnPrompt (DEFAULT_PROMPT_WITHOUT_RAG documentedConstants))
  ∧ prop (getOptionsWithDefaults documentedConstants bareConfig
            (Some (<["promptFn" := JFunction (FnCallback 7)]> {["disableRAG" := JBool true]})))
         "promptFn"
    = JFunction (FnCallback 7).
Proof.
  split.
  - apply (proj1 (promptFn_resolution documentedConstants bareConfig
                    {["disableRAG" := JBool true]})); vm_compute; reflexivity.
  - apply (proj2 (promptFn_resolution documentedConstants bareConfig
                    (<["promptFn" := JFunction (FnCallback 7)]> {["disableRAG" := JBool true]}))).
    vm_compute; reflexivity.
Defined.

(** C9. Constructing with a configuration whose model, or whose vector
    store, is missing throws one of the two configuration errors; the
    world is untouched and no call has been made: no service was created. *)
Theorem constructor_requires_model_and_vector
    (services : Services) (config : Config.t) (w : World) :
  truthy (Config.model config) = false ∨ truthy (Config.vector config) = false →
  ∃ e, constructor services config w = (Throw e, w, [])
       ∧ isConfigurationError e = true.
Proof.
  intros H. unfold constructor.
  destruct (truthy (Config.vector config)) eqn:Hv; cbn [negb].
  - destruct H as [Hm|?]; [|done]. rewrite Hm. cbn [negb]. by eexists.
  - by eexists.
Qed.

Lemma constructor_requires_model_and_vector_witness :
  ∃ e, constructor
         {| checkLimit := λ _, Ok {| success := true; reset := None |};
            getContext := λ _ _, Ok [];
            getMessages := inMemoryGetMessages;
            runModel := λ _ _, {| chunks := []; failure := None |} |}
         modellessConfig {| messages := []; heap := ∅ |}
       = (Throw e, {| messages := []; heap := ∅ |}, [])
       ∧ isConfigurationError e = true.
Proof.
  apply constructor_requires_model_and_vector. left. reflexivity.
Defined.

(** C6. For every input, the sanitized string holds no newline, has no
    white space at either end, is the input without its leading and
    trailing white space and with each remaining newline replaced by one
    space, every other code unit being kept in place; and sanitizing is
    idempotent. *)
Theorem sanitizeQuestion_spec (x : jsstring) :
  (LF ∉ sanitizeQuestion x)
  ∧ (∀ c, head (sanitizeQuestion x) = Some c → isWhiteSpace c = false)
  ∧ (∀ c, last (sanitizeQuestion x) = Some c → isWhiteSpace c = false)
  ∧ (∃ pre core suf,
        x = pre ++ core ++ suf
        ∧ Forall (λ c, isWhiteSpace c = true) pre
        ∧ Forall (λ c, isWhiteSpace c = true) suf
        ∧ length (sanitizeQuestion x) = length core
        ∧ ∀ i c, core !! i = Some c →
            sanitizeQuestion x !! i = Some (if (c =? LF)%N then SP else c))
  ∧ sanitizeQuestion (sanitizeQuestion x) = sanitizeQuestion x.
Proof.
  assert (LF ∉ sanitizeQuestion x) as Hnl.
  { unfold sanitizeQuestion. rewrite replaceAll_newline.
    intros (c & E & _)%list_elem_of_fmap. unfold newlineToSpace in E.
    destruct (N.eqb_spec c LF); [done|]. congruence. }
  split; [done|]. split; [apply sanitize_head|]. split; [apply sanitize_last|].
  split.
  - destruct (trim_split x) as (pre & suf & E & Fp & Fs).
    exists pre, (trim x), suf. repeat split; try done.
    + unfold sanitizeQuestion. by rewrite replaceAll_newline, length_fmap.
    + intros i c Hi. unfold sanitizeQuestion.
      by rewrite replaceAll_newline, list_lookup_fmap, Hi.
  - unfold sanitizeQuestion at 1.
    rewrite trim_fixed by (apply sanitize_head || apply sanitize_last).
    rewrite replaceAll_newline. rewrite <- (list_fmap_id (sanitizeQuestion x)) at 2.
    apply Forall_fmap_ext_1, Forall_forall. intros c Hc. unfold newlineToSpace.
    destruct (N.eqb_spec c LF) as [->|]; [|done]. by apply Hnl in Hc.
Qed.

(** The scenario of the spec: the interior newline becomes a space, the
    double space stays. *)
Example sanitizeQuestion_scenario :
  sanitizeQuestion (js "Where  is" ++ [LF] ++ js "the capital of Turkey?")
  = js "Where  is the capital of Turkey?".
Proof. vm_compute. reflexivity. Qed.

(** ** Running the monad *)

Section Runs.

Variable K : Constants.
Variable this : RAGChat.t.

Lemma run_bind {A B} (c : M A) (k : A → M B) w :
  (c ≫= k) w =
    match c w with
    | (Ok a, w1, l1) => let '(r, w2, l2) := k a w1 in (r, w2, l1 ++ l2)
    | (Throw e, w1, l1) => (Throw e, w1, l1)
    end.
Proof. reflexivity. Qed.

Lemma run_bind_throw {A B} (c : M A) (k : A → M B) w e w1 l1 :
  c w = (Throw e, w1, l1) → (c ≫= k) w = (Throw e, w1, l1).
Proof. intros H. by rewrite run_bind, H. Qed.

Lemma run_tryCatch_throw {A} (c : M A) (h : Error → M A) w e w1 l1 :
  c w = (Throw e, w1, l1) →
  tryCatch c h w = let '(r, w2, l2) := h e w1 in (r, w2, l1 ++ l2).
Proof. intros H. unfold tryCatch. by rewrite H. Qed.

(** What [checkRatelimit] does, by the limiter's answer and the callback. *)
Lemma checkRatelimit_run optionsWithDefault w :
  checkRatelimit this optionsWithDefault w =
    match RAGChat.ratelimit this (prop optionsWithDefault "ratelimitSessionId") with
    | Throw e => (Throw e, w, [EvCheckLimit (prop optionsWithDefault "ratelimitSessionId")])
    | Ok response =>
        if callableOrMissing (prop optionsWithDefault "ratelimitDetails") then
          (if success response then Ok ()
           else Throw (RatelimitUpstashError "Couldn't process chat due to ratelimit."
                         "ERR:USER_RATELIMITED" (reset response)),
           w,
           EvCheckLimit (prop optionsWithDefault "ratelimitSessionId")
             :: (if isFunction (prop optionsWithDefault "ratelimitDetails")
                 then [EvRatelimitDetails response] else []))
        else
          (Throw (TypeError "is not a function"), w,
           [EvCheckLimit (prop optionsWithDefault "ratelimitSessionId")])
    end.
Proof.
  unfold checkRatelimit, call. rewrite run_bind.
  destruct (RAGChat.ratelimit this _) as [response|e]; [|done].
  rewrite run_bind.
  destruct (prop optionsWithDefault "ratelimitDetails"), (success response); reflexivity.
Qed.

Lemma debugCall_run method w :
  debugCall this method w =
    (Ok (), w, if RAGChat.debug this then [EvDebug method] else []).
Proof. unfold debugCall. by destruct (RAGChat.debug this). Qed.

End Runs.

(** ** Computations that do not touch the store *)

Create HintDb quiet.

Section Quiet.

Variable this : RAGChat.t.

Lemma elem_of_appends log sessionId message :
  EvAddMessage sessionId message ∈ log → (sessionId, message) ∈ appends log.
Proof.
  intros H. unfold appends. apply list_elem_of_omap.
  by exists (EvAddMessage sessionId message).
Qed.

Lemma appends_app l1 l2 : appends (l1 ++ l2) = appends l1 ++ appends l2.
Proof. apply omap_app. Qed.

Lemma appends_quiet log : Forall (λ ev, quietEvent ev = true) log → appends log = [].
Proof.
  induction 1 as [|ev log Hev _ IH]; [done|].
  unfold appends in *. cbn. rewrite IH. by destruct ev.
Qed.

Lemma quiet_ret {A} (a : A) : quiet (mret a).
Proof. by intros w. Qed.

Lemma quiet_throw {A} e : quiet (throw (A := A) e).
Proof. by intros w. Qed.

Lemma quiet_emit ev : quietEvent ev = true → quiet (emit ev).
Proof. intros H w. split; [done|]. by repeat constructor. Qed.

Lemma quiet_call {A} ev (r : Result A) : quietEvent ev = true → quiet (call ev r).
Proof. intros H w. split; [done|]. by repeat constructor. Qed.

Lemma quiet_bind {A B} (c : M A) (k : A → M B) :
  quiet c → (∀ a, quiet (k a)) → quiet (c ≫= k).
Proof.
  intros Hc Hk w. rewrite run_bind. destruct (Hc w) as [Hm Hl].
  destruct (c w) as [[[a|e] w1] l1]; [|done].
  destruct (Hk a w1) as [Hm' Hl']. destruct (k a w1) as [[r w2] l2].
  cbn in *. split; [congruence|]. by apply Forall_app.
Qed.

Lemma quiet_tryCatch {A} (c : M A) (h : Error → M A) :
  quiet c → (∀ e, quiet (h e)) → quiet (tryCatch c h).
Proof.
  intros Hc Hh w. unfold tryCatch. destruct (Hc w) as [Hm Hl].
  destruct (c w) as [[[a|e] w1] l1]; [done|].
  destruct (Hh e w1) as [Hm' Hl']. destruct (h e w1) as [[r w2] l2].
  cbn in *. split; [congruence|]. by apply Forall_app.
Qed.

Lemma quiet_getWorld : quiet getWorld.
Proof. by intros w. Qed.

Lemma quiet_alloc l : quiet (alloc l).
Proof. by intros w. Qed.

Lemma quiet_readArray r : quiet (readArray r).
Proof. by intros w. Qed.

Lemma quiet_writeArray r l : quiet (writeArray r l).
Proof. by intros w. Qed.

Lemma quiet_optionalCall f ev : quietEvent ev = true → quiet (optionalCall f ev).
Proof.
  intros H. destruct f; cbn [optionalCall];
    auto using quiet_ret, quiet_throw, quiet_emit.
Qed.

Lemma quiet_debugCall method : quiet (debugCall this method).
Proof.
  unfold debugCall. destruct (RAGChat.debug this);
    auto using quiet_ret, quiet_emit.
Qed.

Hint Resolve quiet_ret quiet_throw quiet_emit quiet_call quiet_getWorld quiet_alloc
  quiet_readArray quiet_writeArray quiet_optionalCall quiet_debugCall : quiet.

Ltac quiet_steps :=
  repeat first
    [ apply quiet_bind; [|intros ?]
    | progress eauto with quiet
    | match goal with |- quiet (if ?b then _ else _) => destruct b end
    | match goal with |- quiet (match ?x with _ => _ end) => destruct x end ].

Lemma quiet_checkRatelimit optionsWithDefault :
  quiet (checkRatelimit this optionsWithDefault).
Proof. unfold checkRatelimit. quiet_steps. Qed.

Lemma quiet_callHistoryHook hook cloned : quiet (callHistoryHook hook cloned).
Proof. unfold callHistoryHook. quiet_steps. Qed.

Lemma quiet_getChatHistory optionsWithDefault :
  quiet (getChatHistory this optionsWithDefault).
Proof.
  unfold getChatHistory, structuredClone, reverseInPlace.
  pose proof quiet_callHistoryHook. quiet_steps.
Qed.

Lemma quiet_generatePrompt optionsWithDefault context question formattedHistory :
  quiet (generatePrompt this optionsWithDefault context question formattedHistory).
Proof. unfold generatePrompt. quiet_steps. Qed.

End Quiet.

(** C1. When the rate limiter answers with [success = false], [chat]
    throws the rate-limit error carrying the reset time of that answer;
    the world, and with it the history store, is as before the call; the
    log holds no [addMessage] at all; and a supplied [ratelimitDetails]
    callback was called with the answer, right after the check and before
    anything that follows the rejection. *)
Theorem chat_rate_limited (K : Constants) (this : RAGChat.t)
    (input : jsstring) (options : option JsObject) (w : World)
    (response : RatelimitResponse) :
  let optionsWithDefault := getOptionsWithDefaults K (RAGChat.config this) options in
  RAGChat.ratelimit this (prop optionsWithDefault "ratelimitSessionId") = Ok response →
  success response = false →
  callableOrMissing (optProp options "ratelimitDetails") = true →
  ∃ log,
    chat K this input options w =
      (Throw (RatelimitUpstashError "Couldn't process chat due to ratelimit."
                "ERR:USER_RATELIMITED" (reset response)),
       w, log)
    ∧ log = EvCheckLimit (prop optionsWithDefault "ratelimitSessionId")
              :: (if isFunction (optProp options "ratelimitDetails")
                  then [EvRatelimitDetails response] else [])
              ++ (if RAGChat.debug this then [EvDebug "logError"] else [])
    ∧ appends log = []
    ∧ (∀ sessionId message, EvAddMessage sessionId message ∉ log).
Proof.
  intros optionsWithDefault Hlimit Hfail Hcb. eexists. split; [|split; [reflexivity|]].
  - unfold chat. apply run_bind_throw.
    erewrite run_tryCatch_throw; cycle 1.
    { unfold prepare. apply run_bind_throw. rewrite checkRatelimit_run.
      fold optionsWithDefault. rewrite Hlimit.
      unfold optionsWithDefault at 1 3.
      rewrite !(resolved_callback K _ _ "ratelimitDetails") by set_solver.
      rewrite Hcb, Hfail. reflexivity. }
    rewrite run_bind, debugCall_run. cbv beta iota zeta. unfold throw.
    rewrite app_nil_r. reflexivity.
  - assert (appends (EvCheckLimit (prop optionsWithDefault "ratelimitSessionId")
              :: (if isFunction (optProp options "ratelimitDetails")
                  then [EvRatelimitDetails response] else [])
              ++ (if RAGChat.debug this then [EvDebug "logError"] else [])) = []) as Hnone
      by by destruct (isFunction _), (RAGChat.debug this).
    split; [done|]. intros sessionId message Hin%elem_of_appends.
    rewrite Hnone in Hin. by apply elem_of_nil in Hin.
Qed.

(** ** The runs of [chat] *)

Section ChatRuns.

Variable K : Constants.
Variable this : RAGChat.t.

Lemma checkRatelimit_world optionsWithDefault w r w' log :
  checkRatelimit this optionsWithDefault w = (r, w', log) → w' = w.
Proof.
  rewrite checkRatelimit_run.
  destruct (RAGChat.ratelimit this _); [|by intros [= _ <- _]].
  destruct (callableOrMissing _); by intros [= _ <- _].
Qed.

Lemma addUserMessageToHistory_run input optionsWithDefault w :
  addUserMessageToHistory input optionsWithDefault w =
    (Ok (),
     {| messages :=
          {| entrySession := prop optionsWithDefault "sessionId";
             entryId := length (messages w);
             entryMessage := userTurn input |} :: messages w;
        heap := heap w |},
     [EvAddMessage (prop optionsWithDefault "sessionId") (userTurn input)]).
Proof. reflexivity. Qed.

(** The awaited steps: either the rate-limit check throws and nothing else
    happened, or the user turn is appended right after the check, the
    retriever is called next, and what follows is quiet. *)
Lemma prepare_run input options w :
  let optionsWithDefault := getOptionsWithDefaults K (RAGChat.config this) options in
  ∃ r w' log,
    prepare K this input options w = (r, w', log)
    ∧ ((∃ e, r = Throw e ∧ w' = w
             ∧ checkRatelimit this optionsWithDefault w = (Throw e, w, log))
       ∨ (∃ before after,
             checkRatelimit this optionsWithDefault w = (Ok (), w, before)
             ∧ log = before
                     ++ EvAddMessage (prop optionsWithDefault "sessionId") (userTurn input)
                     :: EvGetContext optionsWithDefault input :: after
             ∧ Forall (λ ev, quietEvent ev = true) after
             ∧ messages w' =
                 {| entrySession := prop optionsWithDefault "sessionId";
                    entryId := length (messages w);
                    entryMessage := userTurn input |} :: messages w
             ∧ ∀ result, r = Ok result → result.1 = optionsWithDefault)).
Proof.
  intros optionsWithDefault. unfold prepare. fold optionsWithDefault.
  rewrite run_bind.
  destruct (checkRatelimit this optionsWithDefault w) as [[[[]|e] w0] before] eqn:Hcheck.
  2:{ pose proof (checkRatelimit_world _ _ _ _ _ Hcheck) as ->.
      eexists _, _, _. split; [reflexivity|]. left. by exists e. }
  pose proof (checkRatelimit_world _ _ _ _ _ Hcheck) as ->.
  rewrite run_bind, addUserMessageToHistory_run. cbv beta iota zeta.
  set (w1 := {| messages := _; heap := heap w |}).
  rewrite run_bind. unfold call at 1.
  destruct (RAGChat.context this optionsWithDefault input) as [context|e].
  2:{ eexists _, _, _. split; [reflexivity|]. right. exists before, [].
      repeat split; try done. }
  set (rest := getChatHistory this optionsWithDefault ≫= _).
  assert (quiet rest) as Hq.
  { apply quiet_bind; [apply quiet_getChatHistory|]. intros h.
    apply quiet_bind; [apply quiet_generatePrompt|]. intros p. apply quiet_ret. }
  destruct (Hq w1) as [Hm Hl].
  assert (∀ result w2 l2, rest w1 = (Ok result, w2, l2) → result.1 = optionsWithDefault)
    as Hres.
  { intros result w2 l2. unfold rest. rewrite run_bind.
    destruct (getChatHistory this optionsWithDefault w1) as [[[h|?] ?] ?]; [|done].
    rewrite run_bind.
    destruct (generatePrompt this optionsWithDefault context _ h _) as [[[p|?] ?] ?]; [|done].
    by intros [= <- _ _]. }
  destruct (rest w1) as [[r w2] l2] eqn:Hrest. cbn [fst snd] in Hm, Hl.
  eexists _, _, _. split; [reflexivity|]. right. exists before, l2.
  repeat split; try done.
  intros result ->. by eapply Hres.
Qed.

Lemma onCompleteOfChat_run optionsWithDefault output w :
  onCompleteOfChat this optionsWithDefault output w =
    (Ok (),
     appended (prop optionsWithDefault "sessionId")
              (assistantTurn optionsWithDefault output) w,
     (if RAGChat.debug this then [EvDebug "endLLMResponse"] else [])
       ++ [EvAddMessage (prop optionsWithDefault "sessionId")
                        (assistantTurn optionsWithDefault output)]).
Proof.
  unfold onCompleteOfChat. rewrite run_bind, debugCall_run. reflexivity.
Qed.

(** What the model invocation of [chat] does, by mode and model outcome. *)
Lemma callLLM_run optionsWithDefault prompt options chunkHook w :
  callLLM this optionsWithDefault prompt options chunkHook
          (onCompleteOfChat this optionsWithDefault) w =
    let run := RAGChat.llm this optionsWithDefault prompt in
    if truthy (prop optionsWithDefault "streaming") then
      (Ok (StreamOutput {| pending := chunks run; ending := failure run;
                           onChunk := chunkHook;
                           onComplete := onCompleteOfChat this optionsWithDefault |}),
       w, [EvCallLLM optionsWithDefault prompt])
    else
      match failure run with
      | Some e => (Throw e, w, [EvCallLLM optionsWithDefault prompt])
      | None =>
          (Ok (TextOutput (concat (chunks run))),
           appended (prop optionsWithDefault "sessionId")
                    (assistantTurn optionsWithDefault (concat (chunks run))) w,
           EvCallLLM optionsWithDefault prompt
             :: (if RAGChat.debug this then [EvDebug "endLLMResponse"] else [])
             ++ [EvAddMessage (prop optionsWithDefault "sessionId")
                   (assistantTurn optionsWithDefault (concat (chunks run)))])
      end.
Proof.
  unfold callLLM. rewrite run_bind. cbv beta iota zeta.
  destruct (truthy (prop optionsWithDefault "streaming")); [reflexivity|].
  destruct (failure _); [reflexivity|].
  unfold emit. cbv beta iota zeta. rewrite run_bind, onCompleteOfChat_run.
  cbv beta iota zeta delta [mret M_ret]. by rewrite app_nil_r.
Qed.

Lemma deliver_run onChunk chunks w :
  deliver onChunk chunks w =
    (Ok (), w, if isFunction onChunk then EvChunk <$> chunks else []).
Proof.
  induction chunks as [|c r IH]; cbn [deliver].
  - by destruct (isFunction onChunk).
  - rewrite run_bind. destruct onChunk; cbn; by rewrite IH.
Qed.

(** [chat], by what the awaited steps did. *)
Lemma chat_run input options w :
  chat K this input options w =
    match prepare K this input options w with
    | (Throw e, w1, log1) =>
        (Throw e, w1, log1 ++ (if RAGChat.debug this then [EvDebug "logError"] else []))
    | (Ok (optionsWithDefault, prompt), w1, log1) =>
        let '(r, w2, log2) :=
          callLLM this optionsWithDefault prompt options (prop optionsWithDefault "onChunk")
                  (onCompleteOfChat this optionsWithDefault) w1 in
        (r, w2, log1 ++ log2)
    end.
Proof.
  unfold chat. rewrite run_bind. unfold tryCatch.
  destruct (prepare K this input options w) as [[[[o p]|e] w1] log1]; [reflexivity|].
  rewrite run_bind, debugCall_run. cbv beta iota zeta. unfold throw.
  by rewrite app_nil_r.
Qed.

End ChatRuns.

Lemma chat_rate_limited_witness :
  ∃ log,
    chat documentedConstants (instanceWith denyAll noContext twoChunkModel)
         twoLineInput (Some {["ratelimitDetails" := JFunction (FnCallback 1)]}) emptyWorld =
      (Throw (RatelimitUpstashError "Couldn't process chat due to ratelimit."
                "ERR:USER_RATELIMITED" (Some 1700000000%Z)),
       emptyWorld, log)
    ∧ EvRatelimitDetails {| success := false; reset := Some 1700000000%Z |} ∈ log
    ∧ appends log = [].
Proof.
  destruct (chat_rate_limited documentedConstants
              (instanceWith denyAll noContext twoChunkModel) twoLineInput
              (Some {["ratelimitDetails" := JFunction (FnCallback 1)]}) emptyWorld
              {| success := false; reset := Some 1700000000%Z |})
    as (log & Hrun & Hlog & Happ & _); [reflexivity|reflexivity|vm_compute; reflexivity|].
  exists log. split; [exact Hrun|]. split; [|exact Happ].
  rewrite Hlog. vm_compute. apply list_elem_of_further, list_elem_of_here.
Defined.

(** C2. When the rate-limit check lets the request pass, [chat] appends
    the raw input as a [user] message: the log of the call starts with the
    rate-limit check and its callback, the append comes next, the context
    retrieval right after it, and only then the history fetch and the
    model; the message is in the store when [chat] ends, whether it
    returns or throws, whatever the later steps do. *)
Theorem chat_records_raw_user_turn (K : Constants) (this : RAGChat.t)
    (input : jsstring) (options : option JsObject) (w : World)
    (response : RatelimitResponse) :
  let optionsWithDefault := getOptionsWithDefaults K (RAGChat.config this) options in
  RAGChat.ratelimit this (prop optionsWithDefault "ratelimitSessionId") = Ok response →
  success response = true →
  callableOrMissing (optProp options "ratelimitDetails") = true →
  ∃ r w' after,
    chat K this input options w =
      (r, w',
       EvCheckLimit (prop optionsWithDefault "ratelimitSessionId")
         :: (if isFunction (optProp options "ratelimitDetails")
             then [EvRatelimitDetails response] else [])
         ++ EvAddMessage (prop optionsWithDefault "sessionId") (userTurn input)
         :: EvGetContext optionsWithDefault input :: after)
    ∧ NewMessage.content (userTurn input) = input
    ∧ NewMessage.role (userTurn input) = js "user"
    ∧ {| entrySession := prop optionsWithDefault "sessionId";
         entryId := length (messages w);
         entryMessage := userTurn input |} ∈ messages w'.
Proof.
  intros optionsWithDefault Hlimit Hpass Hcb.
  set (before := EvCheckLimit (prop optionsWithDefault "ratelimitSessionId")
                   :: (if isFunction (optProp options "ratelimitDetails")
                       then [EvRatelimitDetails response] else [])).
  assert (checkRatelimit this optionsWithDefault w = (Ok (), w, before)) as Hcheck.
  { rewrite checkRatelimit_run. fold optionsWithDefault. rewrite Hlimit.
    unfold optionsWithDefault at 1 3.
    rewrite !(resolved_callback K _ _ "ratelimitDetails") by set_solver.
    by rewrite Hcb, Hpass. }
  change (EvCheckLimit (prop optionsWithDefault "ratelimitSessionId")
            :: (if isFunction (optProp options "ratelimitDetails")
                then [EvRatelimitDetails response] else [])
            ++ ?l) with (before ++ l).
  rewrite chat_run.
  destruct (prepare_run K this input options w) as (r & w1 & log & Hprep & Hcases).
  fold optionsWithDefault in Hcases.
  destruct Hcases as [(e & _ & _ & Hthrow)|(before' & after & Hcheck' & -> & Hquiet & Hstore & Hres)];
    [congruence|].
  assert (before' = before) as -> by congruence.
  rewrite Hprep. destruct r as [[o p]|e].
  - rewrite callLLM_run. cbv zeta.
    destruct (truthy (prop o "streaming")); [|destruct (failure _)];
      rewrite <- app_assoc; cbn [app];
      eexists _, _, _; (split; [reflexivity|]);
      repeat split; try done.
    + rewrite Hstore. apply list_elem_of_here.
    + rewrite Hstore. apply list_elem_of_here.
    + cbn [appended messages]. rewrite Hstore.
      apply list_elem_of_further, list_elem_of_here.
  - rewrite <- app_assoc. cbn [app].
    eexists _, _, _. split; [reflexivity|].
    repeat split; try done.
    rewrite Hstore. apply list_elem_of_here.
Qed.

Lemma chat_records_raw_user_turn_witness :
  ∃ r w' after,
    chat documentedConstants (instanceWith allowAll brokenRetriever twoChunkModel)
         twoLineInput None emptyWorld =
      (r, w',
       EvCheckLimit
         (prop (getOptionsWithDefaults documentedConstants bareConfig None)
               "ratelimitSessionId")
         :: EvAddMessage
              (prop (getOptionsWithDefaults documentedConstants bareConfig None) "sessionId")
              (userTurn twoLineInput)
         :: EvGetContext (getOptionsWithDefaults documentedConstants bareConfig None)
              twoLineInput
         :: after)
    ∧ NewMessage.content (userTurn twoLineInput) = twoLineInput
    ∧ NewMessage.role (userTurn twoLineInput) = js "user"
    ∧ {| entrySession :=
           prop (getOptionsWithDefaults documentedConstants bareConfig None) "sessionId";
         entryId := 0;
         entryMessage := userTurn twoLineInput |} ∈ messages w'.
Proof.
  apply (chat_records_raw_user_turn documentedConstants
           (instanceWith allowAll brokenRetriever twoChunkModel) twoLineInput None emptyWorld
           {| success := true; reset := None |}); reflexivity.
Defined.

(** In the witness above the retriever throws: [chat] throws, and the user
    turn is in the store. *)
Example user_turn_survives_failed_retrieval :
  ∃ w' log,
    chat documentedConstants (instanceWith allowAll brokenRetriever twoChunkModel)
         twoLineInput None emptyWorld
      = (Throw (CollaboratorError "vector" 1), w', log)
    ∧ NewMessage.content ∘ entryMessage <$> messages w' = [twoLineInput].
Proof. eexists _, _. split; vm_compute; reflexivity. Qed.

(** The sibling path [RAGChatBase.prepareChat] does retrieve with the
    sanitized question. *)
Lemma prepareChat_retrieves_sanitized
    (retrieve : VectorPayload.t → Result jsstring) (payload : VectorPayload.t) (w : World) :
  ∃ r query,
    prepareChat retrieve payload w = (r, w, [EvRetrieve query])
    ∧ VectorPayload.question query = sanitizeQuestion (VectorPayload.question payload).
Proof.
  unfold prepareChat. rewrite run_bind. unfold call.
  destruct (retrieve _) as [facts|e]; eexists _, _; (split; [reflexivity|done]).
Qed.

(** C3, at a failing input. [chat] computes the sanitized question and
    then hands the raw [input] to [this.context.getContext]: for the input
    "hello\nworld" the retriever receives the string with its newline,
    which is not its sanitized form "hello world". *)
Lemma retriever_receives_raw_input :
  retrievalInputs
    (chat documentedConstants (instanceWith allowAll noContext twoChunkModel)
          twoLineInput None emptyWorld).2
    = [twoLineInput]
  ∧ sanitizeQuestion twoLineInput = js "hello world"
  ∧ twoLineInput ≠ sanitizeQuestion twoLineInput.
Proof. repeat split; vm_compute; (reflexivity || discriminate). Qed.

(** ** Model completion *)

Section ModelCompletion.

Variable K : Constants.
Variable this : RAGChat.t.

Lemma elem_of_modelCalls log o p : EvCallLLM o p ∈ log → (o, p) ∈ modelCalls log.
Proof.
  intros H. unfold modelCalls. apply list_elem_of_omap. by exists (EvCallLLM o p).
Qed.

Lemma modelCalls_app l1 l2 : modelCalls (l1 ++ l2) = modelCalls l1 ++ modelCalls l2.
Proof. apply omap_app. Qed.

Lemma modelCalls_quiet log :
  Forall (λ ev, quietEvent ev = true) log → modelCalls log = [].
Proof.
  induction 1 as [|ev log Hev _ IH]; [done|].
  unfold modelCalls in *. cbn. rewrite IH. by destruct ev.
Qed.

Lemma debug_log_quiet method :
  Forall (λ ev, quietEvent ev = true)
         (if RAGChat.debug this then [EvDebug method] else []).
Proof. destruct (RAGChat.debug this); by repeat constructor. Qed.

(** The appends and model calls of the awaited steps. *)
Lemma prepare_log input options w r w1 log :
  let optionsWithDefault := getOptionsWithDefaults K (RAGChat.config this) options in
  prepare K this input options w = (r, w1, log) →
  modelCalls log = []
  ∧ match r with
    | Ok result =>
        result.1 = optionsWithDefault
        ∧ appends log = [(prop optionsWithDefault "sessionId", userTurn input)]
        ∧ messages w1
          = messages (appended (prop optionsWithDefault "sessionId") (userTurn input) w)
    | Throw _ => True
    end.
Proof.
  intros optionsWithDefault Hprep.
  destruct (prepare_run K this input options w) as (r' & w' & log' & Hprep' & Hcases).
  fold optionsWithDefault in Hcases. rewrite Hprep in Hprep'.
  injection Hprep' as <- <- <-.
  destruct (quiet_checkRatelimit this optionsWithDefault w) as [_ Hq].
  destruct Hcases as [(e & -> & -> & Hthrow)|(before & after & Hcheck & -> & Hquiet & Hstore & Hres)].
  - rewrite Hthrow in Hq. cbn in Hq. split; [by apply modelCalls_quiet|done].
  - rewrite Hcheck in Hq. cbn in Hq. split.
    + rewrite modelCalls_app. cbn. fold (modelCalls after).
      by rewrite !modelCalls_quiet.
    + destruct r as [result|]; [|done]. split; [by apply Hres|]. split; [|done].
      rewrite appends_app. cbn. fold (appends after). by rewrite !appends_quiet.
Qed.

(** C8. When a [chat] call reaches the model invocation and the model
    completes, the messages appended during the call are the user turn
    and then exactly one more: for the resolved session, with the model's
    full output as content, role [assistant] and the resolved metadata.
    Without streaming the append has happened when [chat] returns the
    text; with streaming [chat] returns the stream having appended the
    user turn only, and draining the stream appends the assistant turn. *)
Theorem chat_records_assistant_turn input options w r w1 log1 o prompt :
  let optionsWithDefault := getOptionsWithDefaults K (RAGChat.config this) options in
  let sessionId := prop optionsWithDefault "sessionId" in
  let output := concat (chunks (RAGChat.llm this o prompt)) in
  let reply :=
    {| NewMessage.content := output;
       NewMessage.metadata := prop optionsWithDefault "metadata";
       NewMessage.role := js "assistant" |} in
  chat K this input options w = (r, w1, log1) →
  EvCallLLM o prompt ∈ log1 →
  failure (RAGChat.llm this o prompt) = None →
  if truthy (prop optionsWithDefault "streaming") then
    ∃ stream w2 log2,
      r = Ok (StreamOutput stream)
      ∧ appends log1 = [(sessionId, userTurn input)]
      ∧ consume stream w1 = (Ok output, w2, log2)
      ∧ appends log2 = [(sessionId, reply)]
      ∧ messages w2
        = messages (appended sessionId reply (appended sessionId (userTurn input) w))
  else
    r = Ok (TextOutput output)
    ∧ appends log1 = [(sessionId, userTurn input); (sessionId, reply)]
    ∧ messages w1
      = messages (appended sessionId reply (appended sessionId (userTurn input) w)).
Proof.
  intros optionsWithDefault sessionId output reply Hrun Hreach Hcomplete.
  rewrite chat_run in Hrun.
  destruct (prepare K this input options w) as [[r0 w0] log0] eqn:Hprep.
  destruct (prepare_log _ _ _ _ _ _ Hprep) as [Hcalls Hok].
  fold optionsWithDefault in Hok.
  destruct r0 as [[o' p']|e].
  2:{ injection Hrun as <- <- <-. apply elem_of_modelCalls in Hreach.
      rewrite modelCalls_app, Hcalls, modelCalls_quiet in Hreach
        by apply debug_log_quiet.
      by apply elem_of_nil in Hreach. }
  destruct Hok as (Ho & Happ & Hstore). cbn [fst] in Ho. subst o'.
  rewrite callLLM_run in Hrun. cbv zeta in Hrun.
  assert (∀ rest, modelCalls rest = [] →
            EvCallLLM o prompt ∈ log0 ++ EvCallLLM optionsWithDefault p' :: rest →
            o = optionsWithDefault ∧ prompt = p') as Hsame.
  { intros rest Hrest Hin%elem_of_modelCalls.
    rewrite modelCalls_app, Hcalls in Hin. cbn in Hin. fold (modelCalls rest) in Hin.
    rewrite Hrest in Hin.
    apply list_elem_of_singleton in Hin. by injection Hin as -> ->. }
  destruct (truthy (prop optionsWithDefault "streaming")) eqn:Hmode.
  - injection Hrun as <- <- <-.
    destruct (Hsame [] eq_refl Hreach) as [-> ->].
    eexists _, _, _. split; [reflexivity|]. split.
    { rewrite appends_app, Happ. reflexivity. }
    unfold consume. cbn [pending ending onChunk onComplete].
    rewrite run_bind, deliver_run. cbv beta iota zeta.
    fold optionsWithDefault in Hcomplete. rewrite Hcomplete.
    rewrite run_bind, onCompleteOfChat_run. cbv beta iota zeta delta [mret M_ret].
    split; [reflexivity|]. split.
    + rewrite !appends_app, app_nil_r.
      rewrite (appends_quiet (if isFunction _ then _ else _)).
      2:{ destruct (isFunction _); [|constructor].
          apply Forall_fmap, Forall_forall. by intros. }
      rewrite (appends_quiet (if RAGChat.debug this then _ else _))
        by apply debug_log_quiet.
      reflexivity.
    + cbn [appended messages]. by rewrite Hstore.
  - assert (modelCalls
              ((if RAGChat.debug this then [EvDebug "endLLMResponse"] else [])
                 ++ [EvAddMessage sessionId
                       (assistantTurn optionsWithDefault
                          (concat (chunks (RAGChat.llm this optionsWithDefault p'))))])
            = []) as Hrest.
    { rewrite modelCalls_app, modelCalls_quiet by apply debug_log_quiet. reflexivity. }
    destruct (failure (RAGChat.llm this optionsWithDefault p')) eqn:Hfail.
    + injection Hrun as <- <- <-.
      destruct (Hsame [] eq_refl Hreach) as [-> ->]. congruence.
    + injection Hrun as <- <- <-.
      destruct (Hsame _ Hrest Hreach) as [-> ->].
      split; [reflexivity|]. split.
      * rewrite appends_app, Happ. cbn [app]. f_equal.
        change (appends (?a :: ?l)) with (appends l).
        rewrite appends_app, appends_quiet by apply debug_log_quiet. reflexivity.
      * cbn [appended messages]. by rewrite Hstore.
Qed.

End ModelCompletion.

Lemma chat_records_assistant_turn_witness :
  let this := instanceWith allowAll noContext twoChunkModel in
  let optionsWithDefault := getOptionsWithDefaults documentedConstants bareConfig None in
  let run := chat documentedConstants this twoLineInput None emptyWorld in
  let reply :=
    {| NewMessage.content := js "Ankara";
       NewMessage.metadata := prop optionsWithDefault "metadata";
       NewMessage.role := js "assistant" |} in
  run.1.1 = Ok (TextOutput (js "Ankara"))
  ∧ appends run.2
    = [(prop optionsWithDefault "sessionId", userTurn twoLineInput);
       (prop optionsWithDefault "sessionId", reply)]
  ∧ messages run.1.2
    = messages (appended (prop optionsWithDefault "sessionId") reply
                  (appended (prop optionsWithDefault "sessionId")
                            (userTurn twoLineInput) emptyWorld)).
Proof.
  intros this optionsWithDefault run reply.
  pose proof (chat_records_assistant_turn documentedConstants this twoLineInput None
                emptyWorld run.1.1 run.1.2 run.2 optionsWithDefault
                (ragPrompt {| PromptParameters.context := [];
                              PromptParameters.question := sanitizeQuestion twoLineInput;
                              PromptParameters.chatHistory :=
                                Some (js "USER MESSAGE: " ++ twoLineInput) |})) as H.
  cbv zeta in H.
  assert (truthy (prop optionsWithDefault "streaming") = false) as Hmode
    by (vm_compute; reflexivity).
  change (getOptionsWithDefaults documentedConstants (RAGChat.config this) None)
    with optionsWithDefault in H.
  rewrite Hmode in H. apply H.
  - vm_compute. reflexivity.
  - vm_compute. apply list_elem_of_further, list_elem_of_further, list_elem_of_further,
      list_elem_of_further, list_elem_of_here.
  - reflexivity.
Defined.

(** With streaming: [chat] returns the stream after the user turn alone,
    and draining it yields the text and appends the assistant turn once. *)
Example streamed_chat_records_assistant_turn :
  let this := instanceWith allowAll noContext twoChunkModel in
  let options := Some {["streaming" := JBool true]} in
  let optionsWithDefault := getOptionsWithDefaults documentedConstants bareConfig options in
  let run := chat documentedConstants this twoLineInput options emptyWorld in
  match run.1.1 with
  | Ok (StreamOutput stream) =>
      appends run.2 = [(prop optionsWithDefault "sessionId", userTurn twoLineInput)]
      ∧ (consume stream run.1.2).1.1 = Ok (js "Ankara")
      ∧ appends (consume stream run.1.2).2
        = [(prop optionsWithDefault "sessionId",
            assistantTurn optionsWithDefault (js "Ankara"))]
  | _ => False
  end.
Proof. vm_compute. repeat split. Qed.

(** ** Chat history *)

Section HistoryRuns.

Variable this : RAGChat.t.

Lemma fresh_after_insert (h : Heap) (r : nat) (l : list Message.t) :
  fresh (dom (<[r := l]> h)) ≠ r.
Proof.
  intros E. pose proof (is_fresh (dom (<[r := l]> h))) as Hf. rewrite E in Hf.
  apply Hf. rewrite dom_insert_L. set_solver.
Qed.

Lemma fresh_not_allocated (h : Heap) : h !! fresh (dom h) = None.
Proof. apply not_elem_of_dom, is_fresh. Qed.

Ltac run_monad :=
  cbv beta iota zeta delta
    [mbind M_bind mret M_ret emit throw call getWorld readArray writeArray alloc
     structuredClone reverseInPlace];
  cbn [heap messages].

(** Lines 151 to 163 of the class: reverse the chosen array in place, render
    and join. *)
Lemma format_run (modified : nat) (content : list Message.t) w :
  heap w !! modified = Some content →
  (debugCall this "endRetrieveHistory"
   ≫= λ _, reverseInPlace modified
   ≫= λ reversed, readArray reversed
   ≫= λ lines, debugCall this "logRetrieveFormatHistory"
   ≫= λ _, mret (join [LF] (renderMessage <$> lines))) w
  = (Ok (formatHistory content),
     {| messages := messages w; heap := <[modified := reverse content]> (heap w) |},
     (if RAGChat.debug this then [EvDebug "endRetrieveHistory"] else [])
       ++ (if RAGChat.debug this then [EvDebug "logRetrieveFormatHistory"] else [])).
Proof.
  intros Hm. unfold debugCall, formatHistory.
  destruct (RAGChat.debug this); run_monad;
    rewrite Hm, lookup_insert_eq; reflexivity.
Qed.

Lemma fresh_not_in (h : Heap) (r : nat) : is_Some (h !! r) → fresh (dom h) ≠ r.
Proof.
  intros Hr E. pose proof (is_fresh (dom h)) as Hf. rewrite E in Hf.
  by apply Hf, elem_of_dom.
Qed.

(** The hook call, for an array [cloned] holding [content]. *)
Lemma callHistoryHook_run hook cloned content w after ret called :
  heap w !! cloned = Some content →
  hookEffect hook content = Some (after, ret, called) →
  let written := <[cloned := after]> (heap w) in
  callHistoryHook hook cloned w =
    (Ok (match ret with
         | RetUndefined => None
         | RetArgument => Some cloned
         | RetArray _ => Some (fresh (dom written))
         end),
     {| messages := messages w;
        heap := match ret with
                | RetArray l => <[fresh (dom written) := l]> written
                | _ => written
                end |},
     if called then [EvChatHistoryFetched content] else []).
Proof.
  intros Hc Hhook written. unfold hookEffect in Hhook.
  destruct hook as [| | | | | |[g|f|n]]; try discriminate;
    injection Hhook as <- <- <-; cbn [callHistoryHook]; run_monad; rewrite ?Hc;
    cbn [default]; subst written; rewrite ?(insert_id _ _ _ Hc);
    change (id content) with content.
  1, 2, 4: by destruct w.
  by destruct (returned (f content)).
Qed.

Lemma getChatHistory_run optionsWithDefault w fetched after ret called :
  RAGChat.history this (messages w) (prop optionsWithDefault "sessionId")
                  (prop optionsWithDefault "historyLength") = Ok fetched →
  hookEffect (prop optionsWithDefault "onChatHistoryFetched") fetched
    = Some (after, ret, called) →
  let original := fresh (dom (heap w)) in
  let cloned := fresh (dom (<[original := fetched]> (heap w))) in
  ∃ w' log,
    getChatHistory this optionsWithDefault w
      = (Ok (formatHistory (sequenceToFormat fetched after ret)), w', log)
    ∧ messages w' = messages w
    ∧ heap w !! original = None ∧ heap w !! cloned = None ∧ original ≠ cloned
    ∧ heap w' !! original
      = Some (match ret with RetUndefined => reverse fetched | _ => fetched end)
    ∧ heap w' !! cloned
      = Some (match ret with RetArgument => reverse after | _ => after end)
    ∧ (called = true → EvChatHistoryFetched fetched ∈ log).
Proof.
  intros Hread Hhook original cloned.
  assert (cloned ≠ original) as Hne by apply fresh_after_insert.
  assert (heap w !! original = None) as Ho by apply fresh_not_allocated.
  assert (heap w !! cloned = None) as Hc.
  { pose proof (fresh_not_allocated (<[original := fetched]> (heap w))) as H.
    fold cloned in H. by rewrite lookup_insert_ne in H. }
  unfold getChatHistory.
  rewrite run_bind, debugCall_run. cbv beta iota zeta.
  rewrite run_bind. unfold getWorld at 1. cbv beta iota zeta.
  rewrite run_bind. unfold call at 1. rewrite Hread. cbv beta iota zeta.
  rewrite run_bind. unfold alloc at 1. cbv beta iota zeta. cbn [heap messages].
  fold original.
  rewrite run_bind. unfold structuredClone, readArray, alloc.
  rewrite run_bind. cbv beta iota zeta. cbn [heap messages].
  rewrite lookup_insert_eq. cbn [default]. fold cloned.
  change (id fetched) with fetched.
  set (heap2 := <[cloned := fetched]> (<[original := fetched]> (heap w))).
  rewrite run_bind.
  erewrite (callHistoryHook_run _ cloned fetched); [|apply lookup_insert_eq|exact Hhook].
  cbv beta iota zeta. cbn [heap messages].
  set (heap3 := <[cloned := after]> heap2).
  assert (heap3 !! original = Some fetched) as H3o.
  { subst heap3 heap2. rewrite !(lookup_insert_ne _ cloned) by done.
    apply lookup_insert_eq. }
  assert (heap3 !! cloned = Some after) as H3c by apply lookup_insert_eq.
  destruct ret as [| |l]; cbn [default sequenceToFormat].
  - erewrite format_run by exact H3o. cbn [messages heap].
    eexists _, _. split; [reflexivity|]. cbn [heap messages]. repeat split; try done.
    + apply lookup_insert_eq.
    + by rewrite lookup_insert_ne.
    + intros ->. set_solver.
  - erewrite format_run by exact H3c. cbn [messages heap].
    eexists _, _. split; [reflexivity|]. cbn [heap messages]. repeat split; try done.
    + by rewrite lookup_insert_ne.
    + apply lookup_insert_eq.
    + intros ->. set_solver.
  - set (new := fresh (dom heap3)).
    assert (new ≠ original) as Hno by (apply fresh_not_in; by rewrite H3o).
    assert (new ≠ cloned) as Hnc by (apply fresh_not_in; by rewrite H3c).
    erewrite format_run by apply lookup_insert_eq. cbn [messages heap].
    eexists _, _. split; [reflexivity|]. cbn [heap messages]. repeat split; try done.
    + by rewrite !(lookup_insert_ne _ new).
    + by rewrite !(lookup_insert_ne _ new).
    + intros ->. set_solver.
Qed.

End HistoryRuns.

Lemma inMemory_honoursAmount : honoursAmount inMemoryGetMessages.
Proof.
  intros store sessionId q l [= <-]. rewrite length_fmap, length_take. lia.
Qed.

Lemma join_lines_lookup (l : list Message.t) i m :
  l !! i = Some m →
  (renderMessage <$> reverse l) !! (length l - 1 - i)
    = Some (linePrefix m ++ Message.content m).
Proof.
  intros Hi. pose proof (lookup_lt_Some _ _ _ Hi) as Hlt.
  rewrite list_lookup_fmap, reverse_lookup by lia.
  replace (length l - S (length l - 1 - i)) with i by lia. rewrite Hi. cbn.
  unfold renderMessage, linePrefix. by destruct (bool_decide _).
Qed.

(** C7, counterexample. With [historyLength = 1] the in-memory backend
    returns one message; a hook that returns that message twice makes
    [getChatHistory] render two lines, which is not the rendering of the
    fetched sequence. *)
Lemma history_hook_outgrows_historyLength :
  ¬ historyFormattingAsStated
      (instanceWith allowAll noContext twoChunkModel)
      (historyOptions 1 paddingHook) conversationWorld.
Proof.
  intros H.
  destruct (H [ {| Message.id := js "2"; Message.content := js "and Italy?";
                   Message.role := js "user" |} ] 1%nat) as [Hrun _];
    [vm_compute; reflexivity|vm_compute; reflexivity|].
  vm_compute in Hrun. discriminate Hrun.
Qed.

(** C7, amended. When the hook is missing or returns nothing, what
    [getChatHistory] returns is the lines joined with newlines, one line
    per fetched message, the message read at position [i] (newest first)
    being rendered at position [length - 1 - i] (oldest first) as
    [USER MESSAGE: ] or [YOUR MESSAGE: ] followed by its content; with a
    backend that returns at most [amount] messages and a natural
    [historyLength], at most [historyLength] lines are rendered. *)
Theorem history_formatting (this : RAGChat.t) (optionsWithDefault : JsObject)
    (w : World) (fetched : list Message.t) (n : nat) :
  RAGChat.history this (messages w) (prop optionsWithDefault "sessionId")
                  (prop optionsWithDefault "historyLength") = Ok fetched →
  honoursAmount (RAGChat.history this) →
  prop optionsWithDefault "historyLength" = JNum (inject_Z (Z.of_nat n)) →
  keepsFetched (prop optionsWithDefault "onChatHistoryFetched") fetched = true →
  ∃ w' log lines,
    getChatHistory this optionsWithDefault w = (Ok (join [LF] lines), w', log)
    ∧ length lines = length fetched
    ∧ length lines ≤ n
    ∧ ∀ i m, fetched !! i = Some m →
        lines !! (length fetched - 1 - i)
          = Some ((if bool_decide (Message.role m = js "user")
                   then js "USER MESSAGE: " else js "YOUR MESSAGE: ")
                  ++ Message.content m).
Proof.
  intros Hread Hbackend Hlen Hkeep. unfold keepsFetched in Hkeep.
  destruct (hookEffect _ fetched) as [[[after ret] called]|] eqn:Hhook; [|done].
  destruct ret; try done.
  destruct (getChatHistory_run this _ _ _ _ _ _ Hread Hhook)
    as (w' & log & Hrun & _).
  exists w', log, (renderMessage <$> reverse fetched).
  split; [exact Hrun|]. split; [by rewrite length_fmap, length_reverse|]. split.
  - rewrite length_fmap, length_reverse. rewrite Hlen in Hread.
    apply Hbackend in Hread. rewrite Qfloor_Z in Hread. lia.
  - intros i m Hi. by apply join_lines_lookup.
Qed.

(** What the run of the counterexample returns: the fetched message twice. *)
Example padding_hook_renders_two_lines :
  (getChatHistory (instanceWith allowAll noContext twoChunkModel)
                  (historyOptions 1 paddingHook) conversationWorld).1.1
  = Ok (js "USER MESSAGE: and Italy?" ++ [LF] ++ js "USER MESSAGE: and Italy?").
Proof. vm_compute. reflexivity. Qed.

Lemma history_formatting_witness :
  ∃ w' log lines,
    getChatHistory (instanceWith allowAll noContext twoChunkModel)
                   (historyOptions 2 JUndefined) conversationWorld
      = (Ok (join [LF] lines), w', log)
    ∧ lines = [js "YOUR MESSAGE: Ankara"; js "USER MESSAGE: and Italy?"]
    ∧ length lines ≤ 2.
Proof.
  destruct (history_formatting (instanceWith allowAll noContext twoChunkModel)
              (historyOptions 2 JUndefined) conversationWorld
              [ {| Message.id := js "2"; Message.content := js "and Italy?";
                   Message.role := js "user" |};
                {| Message.id := js "1"; Message.content := js "Ankara";
                   Message.role := js "assistant" |} ] 2)
    as (w' & log & lines & Hrun & Hlen & Hle & Hlines).
  - vm_compute. reflexivity.
  - exact inMemory_honoursAmount.
  - vm_compute. reflexivity.
  - vm_compute. reflexivity.
  - exists w', log, lines. split; [exact Hrun|]. split; [|exact Hle].
    pose proof (Hlines 0 _ eq_refl) as H1. pose proof (Hlines 1 _ eq_refl) as H0.
    destruct lines as [|l0 [|l1 [|]]]; try discriminate Hlen.
    vm_compute in H0, H1. injection H0 as ->. injection H1 as ->. reflexivity.
Defined.

(** C10. A supplied [onChatHistoryFetched] hook is called with a copy of
    the fetched sequence held by a fresh array [cloned], distinct from the
    fresh array [original] that holds what was fetched. Whatever the hook
    does to its argument lands in [cloned] only: when the hook returns an
    array, [original] still holds the fetched messages at the end, and the
    formatted history is built from the returned array (the hook's own, or
    its mutated argument); when the hook returns nothing, the formatted
    history is built from the fetched messages as they were fetched, and
    [original] holds them in the reversed order that formatting itself
    produced. The history store is not written. *)
Theorem history_hook_gets_clone (this : RAGChat.t) (optionsWithDefault : JsObject)
    (w : World) (fetched : list Message.t) (f : list Message.t → HookOutcome) :
  RAGChat.history this (messages w) (prop optionsWithDefault "sessionId")
                  (prop optionsWithDefault "historyLength") = Ok fetched →
  prop optionsWithDefault "onChatHistoryFetched" = JFunction (FnHistoryHook f) →
  ∃ formatted w' log original cloned,
    getChatHistory this optionsWithDefault w = (Ok formatted, w', log)
    ∧ heap w !! original = None ∧ heap w !! cloned = None ∧ original ≠ cloned
    ∧ EvChatHistoryFetched fetched ∈ log
    ∧ messages w' = messages w
    ∧ match returned (f fetched) with
      | RetUndefined =>
          formatted = join [LF] (renderMessage <$> reverse fetched)
          ∧ heap w' !! original = Some (reverse fetched)
          ∧ heap w' !! cloned = Some (argumentAfter (f fetched))
      | RetArgument =>
          formatted = join [LF] (renderMessage <$> reverse (argumentAfter (f fetched)))
          ∧ heap w' !! original = Some fetched
          ∧ heap w' !! cloned = Some (reverse (argumentAfter (f fetched)))
      | RetArray l =>
          formatted = join [LF] (renderMessage <$> reverse l)
          ∧ heap w' !! original = Some fetched
          ∧ heap w' !! cloned = Some (argumentAfter (f fetched))
      end.
Proof.
  intros Hread Hhook.
  destruct (getChatHistory_run this optionsWithDefault w fetched
              (argumentAfter (f fetched)) (returned (f fetched)) true Hread)
    as (w' & log & Hrun & Hstore & Ho & Hc & Hne & Hfinal_o & Hfinal_c & Hcalled).
  { by rewrite Hhook. }
  exists (formatHistory (sequenceToFormat fetched (argumentAfter (f fetched))
                                           (returned (f fetched)))),
         w', log, (fresh (dom (heap w))),
         (fresh (dom (<[fresh (dom (heap w)) := fetched]> (heap w)))).
  split; [exact Hrun|].
  repeat (split; [first [done | by apply Hcalled]|]).
  destruct (returned (f fetched)); by repeat split.
Qed.

Lemma history_hook_gets_clone_witness :
  ∃ w' log,
    getChatHistory (instanceWith allowAll noContext twoChunkModel)
                   (historyOptions 2 blankingHook) conversationWorld
      = (Ok (js "YOUR MESSAGE: Ankara" ++ [LF] ++ js "USER MESSAGE: and Italy?"), w', log)
    ∧ messages w' = messages conversationWorld.
Proof.
  destruct (history_hook_gets_clone (instanceWith allowAll noContext twoChunkModel)
              (historyOptions 2 blankingHook) conversationWorld
              [ {| Message.id := js "2"; Message.content := js "and Italy?";
                   Message.role := js "user" |};
                {| Message.id := js "1"; Message.content := js "Ankara";
                   Message.role := js "assistant" |} ]
              (λ l, {| argumentAfter :=
                         (λ m, {| Message.id := Message.id m; Message.content := [];
                                  Message.role := Message.role m |}) <$> l;
                       returned := RetUndefined |}))
    as (formatted & w' & log & original & cloned & Hrun & _ & _ & _ & _ & Hstore & Hfmt).
  - vm_compute. reflexivity.
  - vm_compute. reflexivity.
  - cbn [returned] in Hfmt. destruct Hfmt as (-> & _ & _).
    exists w', log. split; [exact Hrun|exact Hstore].
Defined.

(** ** Two calls in a row *)

(** The scenario of the spec: two sequential [chat] calls with the same
    session and [historyLength = 5]; the prompt of the second call carries
    the user and assistant turns of the first, oldest first, followed by
    its own user turn. *)
Example second_call_sees_first_exchange :
  let this := instanceWith allowAll noContext twoChunkModel in
  let options :=
    Some (withProps ∅ [ ("sessionId", JStr (js "s"));
                        ("historyLength", JNum (inject_Z 5)) ]) in
  let first := chat documentedConstants this (js "capital of Turkey?") options emptyWorld in
  let second := chat documentedConstants this (js "say it again") options first.1.2 in
  snd <$> modelCalls second.2
  = [ ragPrompt
        {| PromptParameters.context := [];
           PromptParameters.question := js "say it again";
           PromptParameters.chatHistory :=
             Some (js "USER MESSAGE: capital of Turkey?" ++ [LF]
                   ++ js "YOUR MESSAGE: Ankara" ++ [LF]
                   ++ js "USER MESSAGE: say it again") |} ].
Proof. vm_compute. reflexivity. Qed.

(* ------------------------------------------------------------------ *)
(** * Further properties of the code *)

(** ** Joining and formatting *)

Section Joining.

Implicit Types (sep x : jsstring) (l : list jsstring).

Lemma join_cons sep x l : l ≠ [] → join sep (x :: l) = x ++ sep ++ join sep l.
Proof. by destruct l. Qed.

Lemma join_app sep l1 l2 :
  l1 ≠ [] → l2 ≠ [] → join sep (l1 ++ l2) = join sep l1 ++ sep ++ join sep l2.
Proof.
  intros H1 H2. induction l1 as [|x l1 IH]; [done|].
  destruct l1 as [|y l1].
  - cbn [app]. by rewrite join_cons.
  - rewrite <- app_comm_cons, !join_cons by done. rewrite IH by done.
    by rewrite <- !app_assoc.
Qed.

(** Two strings without the separator unit, each followed by it, can only
    agree when they are equal. *)
Lemma separator_splits (c : N) x y a b :
  c ∉ x → c ∉ y → x ++ c :: a = y ++ c :: b → x = y ∧ a = b.
Proof.
  revert y. induction x as [|d x IH]; intros [|e y] Hx Hy E; cbn in E.
  - by injection E.
  - injection E as <- _. exfalso. apply Hy, list_elem_of_here.
  - injection E as -> _. exfalso. apply Hx, list_elem_of_here.
  - injection E as -> E. apply not_elem_of_cons in Hx as [_ Hx].
    apply not_elem_of_cons in Hy as [_ Hy].
    destruct (IH y Hx Hy E) as [-> ->]. done.
Qed.

Lemma join_injective (c : N) l1 l2 :
  Forall (λ x, c ∉ x) l1 → Forall (λ x, c ∉ x) l2 →
  l1 ≠ [] → l2 ≠ [] →
  join [c] l1 = join [c] l2 → l1 = l2.
Proof.
  intros H1. revert l2. induction H1 as [|x l1 Hx H1 IH]; intros l2 H2 N1 N2 E; [done|].
  destruct H2 as [|y l2 Hy H2]; [done|].
  destruct l1 as [|x' l1], l2 as [|y' l2].
  - cbn in E. by subst.
  - rewrite (join_cons _ y) in E by done. cbn [join] in E. subst x.
    exfalso. apply Hx. rewrite elem_of_app. right. apply list_elem_of_here.
  - rewrite (join_cons _ x) in E by done. cbn [join] in E. subst y.
    exfalso. apply Hy. rewrite elem_of_app. right. apply list_elem_of_here.
  - rewrite !join_cons in E by done. cbn [app] in E.
    destruct (separator_splits c x y _ _ Hx Hy E) as [-> E'].
    f_equal. by apply IH.
Qed.

End Joining.

(** X1. [formatFacts] is unambiguous on facts that hold no newline: two
    non-empty lists of such facts with the same formatted text are the
    same list. *)
Theorem formatFacts_unambiguous (facts1 facts2 : list jsstring) :
  Forall (λ fact, LF ∉ fact) facts1 → Forall (λ fact, LF ∉ fact) facts2 →
  facts1 ≠ [] → facts2 ≠ [] →
  formatFacts facts1 = formatFacts facts2 → facts1 = facts2.
Proof. apply join_injective. Qed.

Lemma formatFacts_unambiguous_witness :
  [js "vector"; js "store"] = [js "vector"] ++ [js "store"].
Proof.
  apply formatFacts_unambiguous.
  - repeat constructor; apply (bool_decide_unpack _); vm_compute; exact I.
  - repeat constructor; apply (bool_decide_unpack _); vm_compute; exact I.
  - discriminate.
  - discriminate.
  - reflexivity.
Defined.

(** Both hypotheses are needed: a fact holding a newline reads as two
    facts, and no fact at all reads as one empty fact. *)
Example formatFacts_ambiguous :
  formatFacts [js "a" ++ [LF] ++ js "b"] = formatFacts [js "a"; js "b"]
  ∧ formatFacts [] = formatFacts [ [] ].
Proof. split; reflexivity. Qed.

(** X2. [formatChatHistory] renders one line per dialogue turn in the
    order given (it does not reverse), [Human: ] before the content of a
    turn of type [human] and [Assistant: ] before any other, joined with
    newlines; formatting two non-empty stretches of dialogue and joining
    the texts with a newline is formatting the whole dialogue. *)
Theorem formatChatHistory_lines (chatHistory : list BaseMessage.t) :
  (∃ lines,
      formatChatHistory chatHistory = join [LF] lines
      ∧ length lines = length chatHistory
      ∧ ∀ i turn, chatHistory !! i = Some turn →
          lines !! i
          = Some ((if bool_decide (BaseMessage._getType turn = js "human")
                   then js "Human: " else js "Assistant: ")
                  ++ BaseMessage.content turn))
  ∧ (∀ earlier later, chatHistory = earlier ++ later → earlier ≠ [] → later ≠ [] →
       formatChatHistory chatHistory
       = formatChatHistory earlier ++ [LF] ++ formatChatHistory later).
Proof.
  split.
  - eexists. split; [reflexivity|]. split; [by rewrite length_fmap|].
    intros i turn Hi. rewrite list_lookup_fmap, Hi. cbn. by destruct (bool_decide _).
  - intros earlier later -> He Hl. unfold formatChatHistory, formatFacts.
    rewrite fmap_app. apply join_app; by destruct earlier, later.
Qed.

(** ** More on sanitization *)

Section SanitizeMore.

Implicit Types s x pre suf : jsstring.

Lemma trimStart_ws_prefix pre s :
  Forall (λ c, isWhiteSpace c = true) pre → trimStart (pre ++ s) = trimStart s.
Proof. induction 1 as [|c pre Hc _ IH]; [done|]. cbn. by rewrite Hc. Qed.

Lemma trimStart_nil_iff s : trimStart s = [] ↔ Forall (λ c, isWhiteSpace c = true) s.
Proof.
  split.
  - intros E. destruct (trimStart_split s) as (pre & Es & F). rewrite E, app_nil_r in Es.
    by subst.
  - intros F. rewrite <- (app_nil_r s). by rewrite trimStart_ws_prefix.
Qed.

Lemma trimEnd_ws_suffix s suf :
  Forall (λ c, isWhiteSpace c = true) suf → trimEnd (s ++ suf) = trimEnd s.
Proof.
  intros F. unfold trimEnd. rewrite reverse_app, trimStart_ws_prefix; [done|].
  by apply Forall_reverse.
Qed.

Lemma trimEnd_nil_iff s : trimEnd s = [] ↔ Forall (λ c, isWhiteSpace c = true) s.
Proof.
  unfold trimEnd. rewrite <- (Forall_reverse _ s), <- trimStart_nil_iff.
  split; [intros E|intros ->; done].
  apply (f_equal reverse) in E. by rewrite reverse_involutive in E.
Qed.

Lemma trimStart_ws_suffix s suf :
  Forall (λ c, isWhiteSpace c = true) suf →
  trimEnd (trimStart (s ++ suf)) = trimEnd (trimStart s).
Proof.
  intros F. destruct (trimStart_split s) as (pre & Es & Fp).
  destruct (trimStart s) as [|c r] eqn:E.
  - rewrite app_nil_r in Es. subst pre.
    assert (trimStart (s ++ suf) = []) as ->; [|done].
    apply trimStart_nil_iff, Forall_app. done.
  - assert (isWhiteSpace c = false) as Hc by (apply (trimStart_head s); by rewrite E).
    rewrite Es at 1. rewrite <- app_assoc, trimStart_ws_prefix by done.
    cbn [app trimStart]. rewrite Hc.
    change (c :: r ++ suf) with ((c :: r) ++ suf). by apply trimEnd_ws_suffix.
Qed.

Lemma trim_padding pre x suf :
  Forall (λ c, isWhiteSpace c = true) pre → Forall (λ c, isWhiteSpace c = true) suf →
  trim (pre ++ x ++ suf) = trim x.
Proof.
  intros Fp Fs. unfold trim. rewrite trimStart_ws_prefix by done.
  by apply trimStart_ws_suffix.
Qed.

Lemma trim_nil_iff x : trim x = [] ↔ Forall (λ c, isWhiteSpace c = true) x.
Proof.
  unfold trim. rewrite trimEnd_nil_iff. split.
  - intros F. apply trimStart_nil_iff. destruct (trimStart x) as [|c r] eqn:E; [done|].
    assert (isWhiteSpace c = false) as Hc by (apply (trimStart_head x); by rewrite E).
    apply Forall_cons in F as [F _]. congruence.
  - intros F. apply trimStart_nil_iff in F. by rewrite F.
Qed.

Lemma sanitize_no_newline x : LF ∉ sanitizeQuestion x.
Proof.
  unfold sanitizeQuestion. rewrite replaceAll_newline.
  intros (c & E & _)%list_elem_of_fmap. unfold newlineToSpace in E.
  destruct (N.eqb_spec c LF); [done|]. congruence.
Qed.

Lemma newline_free_fixed s : LF ∉ s → newlineToSpace <$> s = s.
Proof.
  intros H. rewrite <- (list_fmap_id s) at 2.
  apply Forall_fmap_ext_1, Forall_forall. intros c Hc. unfold newlineToSpace.
  destruct (N.eqb_spec c LF) as [->|]; [|done]. by apply H in Hc.
Qed.

Lemma sanitize_idempotent x : sanitizeQuestion (sanitizeQuestion x) = sanitizeQuestion x.
Proof.
  unfold sanitizeQuestion at 1.
  rewrite trim_fixed by (apply sanitize_head || apply sanitize_last).
  rewrite replaceAll_newline. apply newline_free_fixed, sanitize_no_newline.
Qed.

End SanitizeMore.

(** X3. White space around the input does not matter to
    [sanitizeQuestion]: padding an input on either side with white space
    (newlines included) gives the same question. *)
Theorem sanitizeQuestion_ignores_padding (pre x suf : jsstring) :
  Forall (λ c, isWhiteSpace c = true) pre →
  Forall (λ c, isWhiteSpace c = true) suf →
  sanitizeQuestion (pre ++ x ++ suf) = sanitizeQuestion x.
Proof. intros Fp Fs. unfold sanitizeQuestion. by rewrite trim_padding. Qed.

Lemma sanitizeQuestion_ignores_padding_witness :
  sanitizeQuestion ([LF; SP] ++ twoLineInput ++ [9; LF]%N) = sanitizeQuestion twoLineInput.
Proof.
  apply sanitizeQuestion_ignores_padding; repeat constructor.
Defined.

(** X4. [sanitizeQuestion] returns its input unchanged exactly when the
    input holds no newline and has no white space at either end; it
    returns the empty string exactly when the input is white space only;
    and the result is never longer than the input. *)
Theorem sanitizeQuestion_fixed_points (x : jsstring) :
  (sanitizeQuestion x = x ↔
     (LF ∉ x)
     ∧ (∀ c, head x = Some c → isWhiteSpace c = false)
     ∧ (∀ c, last x = Some c → isWhiteSpace c = false))
  ∧ (sanitizeQuestion x = [] ↔ Forall (λ c, isWhiteSpace c = true) x)
  ∧ length (sanitizeQuestion x) ≤ length x.
Proof.
  split; [|split].
  - split.
    + intros E. rewrite <- E.
      split; [apply sanitize_no_newline|]. split; [apply sanitize_head|apply sanitize_last].
    + intros (Hnl & Hh & Hl). unfold sanitizeQuestion.
      rewrite trim_fixed, replaceAll_newline by done. by apply newline_free_fixed.
  - unfold sanitizeQuestion. rewrite replaceAll_newline, <- trim_nil_iff.
    split; [apply fmap_nil_inv|by intros ->].
  - destruct (trim_split x) as (pre & suf & E & _ & _).
    unfold sanitizeQuestion. rewrite replaceAll_newline, length_fmap.
    rewrite E at 2. rewrite !length_app. lia.
Qed.

(** ** More on option resolution *)

Section ResolutionMore.

Variable K : Constants.
Implicit Types (o : JsObject) (options : option JsObject) (config : Config.t).

(** The defaults literal of [appendDefaultsIfNeeded], key by key. *)
Lemma defaults_lookup k :
  withProps ∅
    [ ("streaming", JBool false);
      ("metadata", JObject []);
      ("disableRAG", JBool false);
      ("sessionId", JStr (DEFAULT_CHAT_SESSION_ID K));
      ("ratelimitSessionId", JStr (DEFAULT_CHAT_RATELIMIT_SESSION_ID K));
      ("similarityThreshold", JNum (DEFAULT_SIMILARITY_THRESHOLD K));
      ("topK", JNum (inject_Z (DEFAULT_TOP_K K)));
      ("historyLength", JNum (inject_Z (DEFAULT_HISTORY_LENGTH K)));
      ("historyTTL", JNum (inject_Z (DEFAULT_HISTORY_TTL K)));
      ("namespace", JStr (DEFAULT_NAMESPACE K)) ] !! k
  = globalDefault K k.
Proof.
  cbn [withProps foldl fst snd]. unfold globalDefault.
  repeat (case_bool_decide; [subst k; by simplify_map_eq|]).
  by simplify_map_eq.
Qed.

Lemma appendDefaults_lookup options k :
  appendDefaultsIfNeeded K options !! k
  = match default ∅ options !! k with
    | Some v => Some v
    | None => globalDefault K k
    end.
Proof.
  unfold appendDefaultsIfNeeded, spread. rewrite lookup_union, defaults_lookup.
  destruct (default ∅ options !! k); [|by rewrite (left_id_L None _)].
  by destruct (globalDefault K k).
Qed.

Lemma globalDefault_defined k v : globalDefault K k = Some v → v ≠ JUndefined.
Proof.
  unfold globalDefault. repeat (case_bool_decide; [by intros [= <-]|]). done.
Qed.

Lemma globalDefault_keys k : is_Some (globalDefault K k) ↔ k ∈ defaultedKeys.
Proof.
  unfold globalDefault, defaultedKeys. split.
  - repeat (case_bool_decide; [subst k; intros _; set_solver|]). by intros [? ?].
  - intros Hk. repeat (apply elem_of_cons in Hk as [->|Hk]; [by eexists|]).
    by apply elem_of_nil in Hk.
Qed.

Lemma written_lookup_ne o (fields : list (string * JsVal)) k :
  k ∉ fields.*1 → withProps o fields !! k = o !! k.
Proof.
  revert o. induction fields as [|[k' v] fields IH]; intros o Hk; [done|].
  cbn [withProps foldl fst snd]. fold (withProps (<[k' := v]> o) fields).
  apply not_elem_of_cons in Hk as [Hne Hk]. rewrite IH by done.
  by rewrite lookup_insert_ne.
Qed.

Lemma spread_empty_lookup options k : spread ∅ options !! k = default ∅ options !! k.
Proof. unfold spread. by rewrite (right_id_L ∅ (∪)). Qed.

End ResolutionMore.

(** X5. [appendDefaultsIfNeeded] is idempotent, and the object it returns
    owns exactly the properties of its argument and the ten defaulted
    keys. *)
Theorem appendDefaultsIfNeeded_idempotent (K : Constants) (options : option JsObject) :
  appendDefaultsIfNeeded K (Some (appendDefaultsIfNeeded K options))
  = appendDefaultsIfNeeded K options
  ∧ dom (appendDefaultsIfNeeded K options)
    = dom (default ∅ options) ∪ list_to_set defaultedKeys.
Proof.
  split.
  - apply map_eq. intros k. repeat (rewrite appendDefaults_lookup; cbn [default id]).
    destruct (default ∅ options !! k); [done|]. by destruct (globalDefault K k).
  - apply set_eq. intros k. rewrite elem_of_union, !elem_of_dom, appendDefaults_lookup.
    rewrite elem_of_list_to_set, <- globalDefault_keys.
    destruct (default ∅ options !! k) as [v|].
    + split; [by left|by intros _].
    + split; [by right|]. intros [[? ?]|?]; done.
Qed.

(** X6. [appendDefaultsIfNeeded] never drops or changes a property of its
    argument, and a defaulted key reads as [undefined] in the result only
    when the argument owns that key with the value [undefined]. *)
Theorem appendDefaultsIfNeeded_undefined_only_from_options
    (K : Constants) (options : option JsObject) (k : string) :
  k ∈ defaultedKeys →
  (∀ k' v, default ∅ options !! k' = Some v →
           appendDefaultsIfNeeded K options !! k' = Some v)
  ∧ (prop (appendDefaultsIfNeeded K options) k = JUndefined
     ↔ default ∅ options !! k = Some JUndefined).
Proof.
  intros Hk. split.
  - intros k' v H. by rewrite appendDefaults_lookup, H.
  - unfold prop. rewrite appendDefaults_lookup.
    destruct (default ∅ options !! k) as [v|]; cbn [default id].
    + split; [by intros ->|by intros [= ->]].
    + apply (globalDefault_keys K) in Hk as [v Hv]. rewrite Hv. cbn [default id].
      split; [|done]. intros ->. by apply globalDefault_defined in Hv.
Qed.

Lemma appendDefaultsIfNeeded_undefined_only_from_options_witness :
  (∀ k' v, default ∅ (Some ({["topK" := JNum (inject_Z 3)]} : JsObject)) !! k' = Some v →
           appendDefaultsIfNeeded documentedConstants
             (Some {["topK" := JNum (inject_Z 3)]}) !! k' = Some v)
  ∧ (prop (appendDefaultsIfNeeded documentedConstants
             (Some {["topK" := JNum (inject_Z 3)]})) "historyLength" = JUndefined
     ↔ default ∅ (Some ({["topK" := JNum (inject_Z 3)]} : JsObject)) !! "historyLength"
       = Some JUndefined).
Proof.
  apply (appendDefaultsIfNeeded_undefined_only_from_options documentedConstants
           (Some {["topK" := JNum (inject_Z 3)]}) "historyLength").
  apply (bool_decide_unpack _). vm_compute. exact I.
Defined.

(** X7. For the five keys that [getOptionsWithDefaults] resolves against
    the configuration (metadata, namespace, streaming, sessionId,
    ratelimitSessionId) the resolved value is the call-site value unless
    that is [undefined] or [null], and the configured value otherwise; the
    global constants play no part in it. *)
Theorem config_backed_fields (K : Constants) (config : Config.t)
    (options : option JsObject) (k : string) (field : JsVal) :
  configField config k = Some field →
  prop (getOptionsWithDefaults K config options) k = coalesce (optProp options k) field
  ∧ ∀ K', prop (getOptionsWithDefaults K' config options) k
          = prop (getOptionsWithDefaults K config options) k.
Proof.
  intros Hfield.
  assert (∀ K0, prop (getOptionsWithDefaults K0 config options) k
                = coalesce (optProp options k) field) as H.
  { intros K0. unfold configField in Hfield.
    repeat (case_bool_decide;
            [subst k; injection Hfield as <-; unfold getOptionsWithDefaults;
             apply appendDefaults_own; cbn [withProps foldl fst snd];
             by simplify_map_eq|]).
    done. }
  split; [apply H|]. intros K'. by rewrite !H.
Qed.

Lemma config_backed_fields_witness :
  prop (getOptionsWithDefaults documentedConstants bareConfig
          (Some {["sessionId" := JNull]})) "sessionId"
  = coalesce (optProp (Some {["sessionId" := JNull]}) "sessionId") JUndefined
  ∧ ∀ K', prop (getOptionsWithDefaults K' bareConfig
                  (Some {["sessionId" := JNull]})) "sessionId"
          = prop (getOptionsWithDefaults documentedConstants bareConfig
                    (Some {["sessionId" := JNull]})) "sessionId".
Proof.
  apply (config_backed_fields documentedConstants bareConfig
           (Some {["sessionId" := JNull]}) "sessionId" JUndefined).
  reflexivity.
Defined.

(** X8. For every key that [getOptionsWithDefaults] does not write itself
    the resolved object holds the call-site property when the call-site
    options own one, whatever its value, and otherwise the global default
    of the key if it has one; the configuration plays no part, and a key
    without default, such as a callback, is carried over or stays
    absent. *)
Theorem unwritten_fields (K : Constants) (config : Config.t)
    (options : option JsObject) (k : string) :
  k ∉ writtenKeys →
  getOptionsWithDefaults K config options !! k
  = match default ∅ options !! k with
    | Some v => Some v
    | None => globalDefault K k
    end.
Proof.
  intros Hk. unfold getOptionsWithDefaults. rewrite appendDefaults_lookup. cbn [default id].
  rewrite written_lookup_ne by exact Hk. by rewrite spread_empty_lookup.
Qed.

Lemma unwritten_fields_witness :
  getOptionsWithDefaults documentedConstants bareConfig
    (Some {["onChunk" := JFunction (FnCallback 4)]}) !! "historyLength"
  = match default ∅ (Some ({["onChunk" := JFunction (FnCallback 4)]} : JsObject))
          !! "historyLength" with
    | Some v => Some v
    | None => globalDefault documentedConstants "historyLength"
    end.
Proof.
  apply (unwritten_fields documentedConstants bareConfig
           (Some {["onChunk" := JFunction (FnCallback 4)]}) "historyLength").
  apply (bool_decide_unpack _). vm_compute. exact I.
Defined.

(** X9. When [disableRAG] is not truthy at the call site, the resolved
    [promptFn] is the call-site [promptFn] unless that is [undefined] or
    [null], and the configured prompt otherwise: the no-context template
    is not used. *)
Theorem promptFn_with_rag (K : Constants) (config : Config.t) (options : option JsObject) :
  truthy (optProp options "disableRAG") = false →
  prop (getOptionsWithDefaults K config options) "promptFn"
  = coalesce (optProp options "promptFn") (Config.prompt config).
Proof.
  intros H. rewrite resolved_promptFn. unfold js_and. by rewrite H, H.
Qed.

Lemma promptFn_with_rag_witness :
  prop (getOptionsWithDefaults documentedConstants bareConfig None) "promptFn"
  = coalesce (optProp None "promptFn") (Config.prompt bareConfig).
Proof.
  apply (promptFn_with_rag documentedConstants bareConfig None). reflexivity.
Defined.

(** ** More on the class *)

(** X10. When the configuration has both a vector store and a model, the
    constructor returns an instance that keeps the configuration and the
    given services, leaves the world as it is, and has created the
    services in the order Database, HistoryService, LLMService, then
    ContextService, then ChatLogger (only when [debug] is truthy), then
    RateLimitService; the instance logs exactly when [debug] is truthy. *)
Theorem constructor_wires_services (services : Services) (config : Config.t) (w : World) :
  truthy (Config.vector config) = true →
  truthy (Config.model config) = true →
  ∃ instance,
    constructor services config w
      = (Ok instance, w,
         EvNew <$> ([ "Database"; "HistoryService"; "LLMService"; "ContextService" ]
                    ++ (if truthy (Config.debug config) then [ "ChatLogger" ] else [])
                    ++ [ "RateLimitService" ]))
    ∧ RAGChat.config instance = config
    ∧ RAGChat.debug instance = truthy (Config.debug config)
    ∧ RAGChat.ratelimit instance = checkLimit services
    ∧ RAGChat.context instance = getContext services
    ∧ RAGChat.history instance = getMessages services
    ∧ RAGChat.llm instance = runModel services.
Proof.
  intros Hv Hm. unfold constructor. rewrite Hv, Hm. cbn [negb].
  destruct (truthy (Config.debug config)); eexists; (split; [reflexivity|done]).
Qed.

Lemma constructor_wires_services_witness :
  ∃ instance,
    constructor
      {| checkLimit := allowAll; getContext := noContext;
         getMessages := inMemoryGetMessages; runModel := twoChunkModel |}
      bareConfig emptyWorld
      = (Ok instance, emptyWorld,
         EvNew <$> ([ "Database"; "HistoryService"; "LLMService"; "ContextService" ]
                    ++ [] ++ [ "RateLimitService" ]))
    ∧ RAGChat.config instance = bareConfig
    ∧ RAGChat.debug instance = false
    ∧ RAGChat.ratelimit instance = allowAll
    ∧ RAGChat.context instance = noContext
    ∧ RAGChat.history instance = inMemoryGetMessages
    ∧ RAGChat.llm instance = twoChunkModel.
Proof.
  apply (constructor_wires_services
           {| checkLimit := allowAll; getContext := noContext;
              getMessages := inMemoryGetMessages; runModel := twoChunkModel |}
           bareConfig emptyWorld); reflexivity.
Defined.

(** X11. [checkRatelimit] never changes the world. When the limiter
    answers, a supplied [ratelimitDetails] callback is called exactly once
    with that answer, for an allowed request as for a rejected one, and
    the method returns normally exactly when [success] is true; when the
    limiter itself throws, its error is passed on and the callback is not
    called. *)
Theorem checkRatelimit_calls_details_once (this : RAGChat.t)
    (optionsWithDefault : JsObject) (w : World) :
  callableOrMissing (prop optionsWithDefault "ratelimitDetails") = true →
  ∃ r log,
    checkRatelimit this optionsWithDefault w = (r, w, log)
    ∧ match RAGChat.ratelimit this (prop optionsWithDefault "ratelimitSessionId") with
      | Ok response =>
          (r = Ok () ↔ success response = true)
          ∧ detailsCalls log
            = (if isFunction (prop optionsWithDefault "ratelimitDetails")
               then [response] else [])
      | Throw e =>
          r = Throw e
          ∧ detailsCalls log
            = []
      end.
Proof.
  intros Hcb. rewrite checkRatelimit_run, Hcb.
  destruct (RAGChat.ratelimit this _) as [response|e].
  - eexists _, _. split; [reflexivity|]. split.
    + destruct (success response); split; done.
    + by destruct (isFunction _).
  - eexists _, _. split; [reflexivity|]. done.
Qed.

Lemma checkRatelimit_calls_details_once_witness :
  ∃ r log,
    checkRatelimit (instanceWith denyAll noContext twoChunkModel)
      {["ratelimitDetails" := JFunction (FnCallback 1)]} emptyWorld = (r, emptyWorld, log)
    ∧ (r = Ok () ↔ false = true)
    ∧ detailsCalls log = [ {| success := false; reset := Some 1700000000%Z |} ].
Proof.
  pose proof (checkRatelimit_calls_details_once
                (instanceWith denyAll noContext twoChunkModel)
                {["ratelimitDetails" := JFunction (FnCallback 1)]} emptyWorld) as H.
  assert (prop ({["ratelimitDetails" := JFunction (FnCallback 1)]} : JsObject)
               "ratelimitDetails" = JFunction (FnCallback 1)) as E
    by (vm_compute; reflexivity).
  rewrite E in H. apply H. reflexivity.
Defined.

(** ** The history store across a call *)

Section ChatMore.

Variable K : Constants.
Variable this : RAGChat.t.

(** What the awaited steps leave in the store and in the log. *)
Lemma prepare_store input options w r w1 log :
  let optionsWithDefault := getOptionsWithDefaults K (RAGChat.config this) options in
  prepare K this input options w = (r, w1, log) →
  modelCalls log = []
  ∧ ((messages w1 = messages w ∧ appends log = [] ∧ ∃ e, r = Throw e)
     ∨ (messages w1
        = messages (appended (prop optionsWithDefault "sessionId") (userTurn input) w)
        ∧ appends log = [(prop optionsWithDefault "sessionId", userTurn input)]
        ∧ ∀ result, r = Ok result → result.1 = optionsWithDefault)).
Proof.
  intros optionsWithDefault Hprep.
  destruct (prepare_run K this input options w) as (r' & w' & log' & Hprep' & Hcases).
  fold optionsWithDefault in Hcases. rewrite Hprep in Hprep'.
  injection Hprep' as <- <- <-.
  destruct (quiet_checkRatelimit this optionsWithDefault w) as [_ Hq].
  destruct Hcases as [(e & -> & -> & Hthrow)|(before & after & Hcheck & -> & Hquiet & Hstore & Hres)].
  - rewrite Hthrow in Hq. cbn in Hq. split; [by apply modelCalls_quiet|].
    left. split; [done|]. split; [by apply appends_quiet|by exists e].
  - rewrite Hcheck in Hq. cbn in Hq. split.
    + rewrite modelCalls_app. cbn. fold (modelCalls after). by rewrite !modelCalls_quiet.
    + right. split; [done|]. split; [|done].
      rewrite appends_app. cbn. fold (appends after). by rewrite !appends_quiet.
Qed.

End ChatMore.

(** X12. Whatever the outcome, one [chat] call leaves every earlier entry
    of the history store in place and puts at most two new entries in
    front of them, all for the resolved session; the new entries are
    exactly the [addMessage] calls of the call, in the order made. *)
Theorem chat_store_frame (K : Constants) (this : RAGChat.t)
    (input : jsstring) (options : option JsObject) (w : World) :
  let optionsWithDefault := getOptionsWithDefaults K (RAGChat.config this) options in
  ∃ added,
    messages (chat K this input options w).1.2 = added ++ messages w
    ∧ length added ≤ 2
    ∧ Forall (λ entry, entrySession entry = prop optionsWithDefault "sessionId") added
    ∧ appends (chat K this input options w).2
      = reverse ((λ entry, (entrySession entry, entryMessage entry)) <$> added).
Proof.
  intros optionsWithDefault. rewrite chat_run.
  destruct (prepare K this input options w) as [[r0 w0] log0] eqn:Hprep.
  destruct (prepare_store K this _ _ _ _ _ _ Hprep) as [_ Hcases].
  fold optionsWithDefault in Hcases.
  assert (∀ method, appends (log0 ++ (if RAGChat.debug this then [EvDebug method] else []))
                    = appends log0) as Hdbg.
  { intros method. rewrite appends_app.
    rewrite (appends_quiet (if RAGChat.debug this then [EvDebug method] else []))
      by apply debug_log_quiet.
    apply app_nil_r. }
  set (sessionId := prop optionsWithDefault "sessionId") in *.
  set (userEntry := {| entrySession := sessionId; entryId := length (messages w);
                       entryMessage := userTurn input |}).
  destruct Hcases as [(Hstore & Happ & e & ->)|(Hstore & Happ & Hres)].
  - exists []. cbn [fst snd]. rewrite Hdbg, Happ. repeat split; try done. cbn. lia.
  - cbn [appended messages] in Hstore. fold userEntry in Hstore.
    destruct r0 as [[o p]|e].
    + specialize (Hres _ eq_refl). cbn [fst] in Hres. subst o.
      rewrite callLLM_run. cbv zeta. fold sessionId.
      destruct (truthy (prop optionsWithDefault "streaming")); [|destruct (failure _)].
      * exists [userEntry]. cbn [fst snd]. rewrite appends_app, Happ, Hstore.
        repeat split; try done; [cbn; lia|by repeat constructor].
      * exists [userEntry]. cbn [fst snd]. rewrite appends_app, Happ, Hstore.
        repeat split; try done; [cbn; lia|by repeat constructor].
      * set (output := concat _).
        exists [ {| entrySession := sessionId; entryId := length (messages w0);
                    entryMessage := assistantTurn optionsWithDefault output |};
                 userEntry ].
        cbn [fst snd appended messages].
        rewrite Hstore, appends_app, Happ.
        split; [reflexivity|]. split; [cbn; lia|]. split; [by repeat constructor|].
        change (appends (?a :: ?l)) with (appends l).
        rewrite appends_app, appends_quiet by apply debug_log_quiet. reflexivity.
    + exists [userEntry]. cbn [fst snd]. rewrite Hdbg, Happ, Hstore.
      repeat split; try done; [cbn; lia|by repeat constructor].
Qed.

(** ** More on reading the history *)

Section HistoryMore.

Variable this : RAGChat.t.

Lemma getChatHistory_backend_throws optionsWithDefault w e :
  RAGChat.history this (messages w) (prop optionsWithDefault "sessionId")
                  (prop optionsWithDefault "historyLength") = Throw e →
  getChatHistory this optionsWithDefault w
  = (Throw e, w,
     (if RAGChat.debug this then [EvDebug "startRetrieveHistory"] else [])
       ++ [EvGetMessages (prop optionsWithDefault "sessionId")
                         (prop optionsWithDefault "historyLength")]).
Proof.
  intros Hread. unfold getChatHistory.
  rewrite run_bind, debugCall_run. cbv beta iota zeta.
  rewrite run_bind. unfold getWorld at 1. cbv beta iota zeta.
  rewrite run_bind. unfold call at 1. rewrite Hread. reflexivity.
Qed.




End HistoryMore.

(** X13. When the history backend throws, [getChatHistory] throws the same
    error; the hook has not been called, no array was made, and the world
    is as before. *)
Theorem getChatHistory_backend_failure (this : RAGChat.t) (optionsWithDefault : JsObject)
    (w : World) (e : Error) :
  RAGChat.history this (messages w) (prop optionsWithDefault "sessionId")
                  (prop optionsWithDefault "historyLength") = Throw e →
  ∃ log,
    getChatHistory this optionsWithDefault w = (Throw e, w, log)
    ∧ (∀ argument, EvChatHistoryFetched argument ∉ log)
    ∧ EvGetMessages (prop optionsWithDefault "sessionId")
                    (prop optionsWithDefault "historyLength") ∈ log.
Proof.
  intros Hread. eexists. split; [by apply getChatHistory_backend_throws|].
  split.
  - intros argument Hin. apply elem_of_app in Hin as [Hin|Hin].
    + destruct (RAGChat.debug this); [|by apply elem_of_nil in Hin].
      by apply list_elem_of_singleton in Hin.
    + by apply list_elem_of_singleton in Hin.
  - apply elem_of_app. right. by apply list_elem_of_singleton.
Qed.

Lemma getChatHistory_backend_failure_witness :
  ∃ log,
    getChatHistory brokenHistoryInstance (historyOptions 2 blankingHook) conversationWorld
    = (Throw (CollaboratorError "redis" 2), conversationWorld, log)
    ∧ (∀ argument, EvChatHistoryFetched argument ∉ log)
    ∧ EvGetMessages (prop (historyOptions 2 blankingHook) "sessionId")
                    (prop (historyOptions 2 blankingHook) "historyLength") ∈ log.
Proof.
  apply (getChatHistory_backend_failure brokenHistoryInstance
           (historyOptions 2 blankingHook) conversationWorld).
  reflexivity.
Defined.

(** X14. With a hook that is missing or returns nothing, [getChatHistory]
    returns the empty string for an empty history, and for a history read
    as [newer ++ older] (newest first) the text of the older messages, a
    newline, and the text of the newer ones: the oldest message comes
    first. *)
Theorem getChatHistory_chronological (this : RAGChat.t) (optionsWithDefault : JsObject)
    (w : World) (fetched : list Message.t) :
  RAGChat.history this (messages w) (prop optionsWithDefault "sessionId")
                  (prop optionsWithDefault "historyLength") = Ok fetched →
  keepsFetched (prop optionsWithDefault "onChatHistoryFetched") fetched = true →
  ∃ formatted,
    (getChatHistory this optionsWithDefault w).1.1 = Ok formatted
    ∧ (fetched = [] → formatted = [])
    ∧ (∀ newer older, fetched = newer ++ older → newer ≠ [] → older ≠ [] →
         formatted = formatHistory older ++ [LF] ++ formatHistory newer).
Proof.
  intros Hread Hkeep. unfold keepsFetched in Hkeep.
  destruct (hookEffect _ fetched) as [[[after ret] called]|] eqn:Hhook; [|done].
  destruct ret; try done.
  destruct (getChatHistory_run this _ _ _ _ _ _ Hread Hhook) as (w' & log & Hrun & _).
  rewrite Hrun. eexists. split; [reflexivity|]. cbn [sequenceToFormat]. split.
  - by intros ->.
  - intros newer older -> Hn Ho. unfold formatHistory.
    rewrite reverse_app, fmap_app. apply join_app.
    + destruct older; [done|]. rewrite reverse_cons, fmap_app. by destruct (_ <$> reverse older).
    + destruct newer; [done|]. rewrite reverse_cons, fmap_app. by destruct (_ <$> reverse newer).
Qed.

Lemma getChatHistory_chronological_witness :
  ∃ formatted,
    (getChatHistory (instanceWith allowAll noContext twoChunkModel)
                    (historyOptions 2 JUndefined) conversationWorld).1.1 = Ok formatted
    ∧ formatted = js "YOUR MESSAGE: Ankara" ++ [LF] ++ js "USER MESSAGE: and Italy?".
Proof.
  destruct (getChatHistory_chronological (instanceWith allowAll noContext twoChunkModel)
              (historyOptions 2 JUndefined) conversationWorld
              [ {| Message.id := js "2"; Message.content := js "and Italy?";
                   Message.role := js "user" |};
                {| Message.id := js "1"; Message.content := js "Ankara";
                   Message.role := js "assistant" |} ])
    as (formatted & Hrun & _ & Happ).
  - vm_compute. reflexivity.
  - vm_compute. reflexivity.
  - exists formatted. split; [exact Hrun|].
    rewrite (Happ [ {| Message.id := js "2"; Message.content := js "and Italy?";
                       Message.role := js "user" |} ]
                  [ {| Message.id := js "1"; Message.content := js "Ankara";
                       Message.role := js "assistant" |} ]) by done.
    vm_compute. reflexivity.
Defined.

(** ** Retrieval and the prompt *)

Section PromptRuns.

Variable K : Constants.
Variable this : RAGChat.t.

(** The awaited steps when the limiter lets the request pass. *)
Lemma prepare_after_check input options w response :
  let optionsWithDefault := getOptionsWithDefaults K (RAGChat.config this) options in
  RAGChat.ratelimit this (prop optionsWithDefault "ratelimitSessionId") = Ok response →
  success response = true →
  callableOrMissing (prop optionsWithDefault "ratelimitDetails") = true →
  prepare K this input options w
  = let '(r, w', log) :=
      (context ←
         call (EvGetContext optionsWithDefault input)
              (RAGChat.context this optionsWithDefault input);
       formattedHistory ← getChatHistory this optionsWithDefault;
       prompt ← generatePrompt this optionsWithDefault context (sanitizeQuestion input)
                               formattedHistory;
       mret (optionsWithDefault, prompt))
        (appended (prop optionsWithDefault "sessionId") (userTurn input) w) in
    (r, w',
     (EvCheckLimit (prop optionsWithDefault "ratelimitSessionId")
        :: (if isFunction (prop optionsWithDefault "ratelimitDetails")
            then [EvRatelimitDetails response] else []))
       ++ EvAddMessage (prop optionsWithDefault "sessionId") (userTurn input) :: log).
Proof.
  intros optionsWithDefault Hlimit Hpass Hcb. unfold prepare. fold optionsWithDefault.
  rewrite run_bind, checkRatelimit_run, Hlimit, Hcb, Hpass. cbv beta iota zeta.
  rewrite run_bind, addUserMessageToHistory_run. cbv beta iota zeta.
  fold (appended (prop optionsWithDefault "sessionId") (userTurn input) w).
  set (rest := call _ _ ≫= _).
  by destruct (rest _) as [[r w'] log].
Qed.


End PromptRuns.

(** X15. When the limiter lets the request pass and the retriever throws,
    [chat] throws the retriever's error: the user turn is already in the
    store and stays there, and after the retriever call nothing happens
    but the error log of the debug logger; the history is not read and the
    model is not called. *)
Theorem chat_retrieval_failure (K : Constants) (this : RAGChat.t)
    (input : jsstring) (options : option JsObject) (w : World)
    (response : RatelimitResponse) (e : Error) :
  let optionsWithDefault := getOptionsWithDefaults K (RAGChat.config this) options in
  RAGChat.ratelimit this (prop optionsWithDefault "ratelimitSessionId") = Ok response →
  success response = true →
  callableOrMissing (prop optionsWithDefault "ratelimitDetails") = true →
  RAGChat.context this optionsWithDefault input = Throw e →
  chat K this input options w
  = (Throw e,
     appended (prop optionsWithDefault "sessionId") (userTurn input) w,
     EvCheckLimit (prop optionsWithDefault "ratelimitSessionId")
       :: (if isFunction (prop optionsWithDefault "ratelimitDetails")
           then [EvRatelimitDetails response] else [])
       ++ [EvAddMessage (prop optionsWithDefault "sessionId") (userTurn input);
           EvGetContext optionsWithDefault input]
       ++ (if RAGChat.debug this then [EvDebug "logError"] else [])).
Proof.
  intros optionsWithDefault Hlimit Hpass Hcb Hctx.
  rewrite chat_run, (prepare_after_check K this input options w response Hlimit Hpass Hcb).
  fold optionsWithDefault. rewrite run_bind. unfold call at 1. rewrite Hctx.
  cbv beta iota zeta. f_equal. cbn [app]. f_equal. by rewrite <- !app_assoc.
Qed.

Lemma chat_retrieval_failure_witness :
  chat documentedConstants (instanceWith allowAll brokenRetriever twoChunkModel)
       twoLineInput None emptyWorld
  = (Throw (CollaboratorError "vector" 1),
     appended JUndefined (userTurn twoLineInput) emptyWorld,
     [EvCheckLimit JUndefined;
      EvAddMessage JUndefined (userTurn twoLineInput);
      EvGetContext (getOptionsWithDefaults documentedConstants bareConfig None)
                   twoLineInput]).
Proof.
  pose proof (chat_retrieval_failure documentedConstants
                (instanceWith allowAll brokenRetriever twoChunkModel)
                twoLineInput None emptyWorld
                {| success := true; reset := None |}
                (CollaboratorError "vector" 1)) as H.
  cbv zeta in H. rewrite H; [|reflexivity|reflexivity|vm_compute; reflexivity|reflexivity].
  vm_compute. reflexivity.
Defined.



(** X17. [prepareChat] sanitizes the question once and uses that one
    string twice: as the question of the single query sent to the vector
    service, whose other fields are those of the payload, and as the
    question it returns beside the facts; an error of the service is
    thrown on. A payload whose question is already sanitized gives the
    same run. *)
Theorem prepareChat_question_consistent
    (retrieve : VectorPayload.t → Result jsstring) (payload : VectorPayload.t) (w : World) :
  let query :=
    {| VectorPayload.question := sanitizeQuestion (VectorPayload.question payload);
       VectorPayload.similarityThreshold := VectorPayload.similarityThreshold payload;
       VectorPayload.topK := VectorPayload.topK payload;
       VectorPayload.metadataKey := VectorPayload.metadataKey payload |} in
  prepareChat retrieve payload w
  = (match retrieve query with
     | Ok facts =>
         Ok {| PrepareChatResult.question := VectorPayload.question query;
               PrepareChatResult.facts := facts |}
     | Throw e => Throw e
     end, w, [EvRetrieve query])
  ∧ prepareChat retrieve query w = prepareChat retrieve payload w.
Proof.
  intros query.
  assert (∀ p, prepareChat retrieve p w
               = (match retrieve
                          {| VectorPayload.question := sanitizeQuestion (VectorPayload.question p);
                             VectorPayload.similarityThreshold := VectorPayload.similarityThreshold p;
                             VectorPayload.topK := VectorPayload.topK p;
                             VectorPayload.metadataKey := VectorPayload.metadataKey p |} with
                  | Ok facts =>
                      Ok {| PrepareChatResult.question := sanitizeQuestion (VectorPayload.question p);
                            PrepareChatResult.facts := facts |}
                  | Throw e => Throw e
                  end, w,
                  [EvRetrieve
                     {| VectorPayload.question := sanitizeQuestion (VectorPayload.question p);
                        VectorPayload.similarityThreshold := VectorPayload.similarityThreshold p;
                        VectorPayload.topK := VectorPayload.topK p;
                        VectorPayload.metadataKey := VectorPayload.metadataKey p |}])) as Hrun.
  { intros p. unfold prepareChat. rewrite run_bind. unfold call.
    by destruct (retrieve _). }
  split; [apply Hrun|].
  rewrite !Hrun. unfold query. cbn [VectorPayload.question VectorPayload.similarityThreshold
                                    VectorPayload.topK VectorPayload.metadataKey].
  by rewrite sanitize_idempotent.
Qed.
